(** * CoolQBot: plugin data store and FFLogs ranking queries

    A shallow embedding of [src/coolqbot/plugin.py] (class [PluginData]) and
    of [src/plugins/fflogs/api.py] (class [FFLogs]), with the properties of
    the percentile report, the per-day cache, the paginated fetch, the
    window aggregation, the configuration store and the token accessor. *)

From Stdlib Require Import ZArith QArith Qround Lia List Bool Ascii String
  Sorting.Sorted
  Sorting.Permutation SpecFloat.
From stdpp Require Import base option list strings pretty gmap fin_maps.

Set Default Proof Using "Type".
Local Open Scope Z_scope.

(** ** Python floats

    [math.floor(total * 0.01 * (100 - perc))] is evaluated on IEEE-754
    binary64 numbers.  A finite float is kept as a pair [(m, e)] standing
    for [m * 2^e]; every operation rounds the exact result to 53 significant
    bits, ties to even.  The pair need not be normalised.  Exponent range
    (overflow, subnormals) is not represented: the operands below are list
    lengths, the literal [0.01] and integers between 0 and 100. *)

Module Float.

(** [n / 2^s] rounded to the nearest integer, ties to the even one. *)
Definition round_half_even (n s : Z) : Z :=
  let q := n / 2 ^ s in
  let r := n mod 2 ^ s in
  let half := 2 ^ (s - 1) in
  if r <? half then q
  else if half <? r then q + 1
  else if Z.even q then q else q + 1.

(** Number of low bits a positive integer loses when it is cut to 53
    significant bits. *)
Definition excess (n : Z) : Z := Z.log2 n - 52.

(** A non-negative integer rounded to 53 significant bits. *)
Definition round53_pos (n : Z) : Z :=
  let s := excess n in
  if s <=? 0 then n else round_half_even n s * 2 ^ s.

Definition round53 (n : Z) : Z := Z.sgn n * round53_pos (Z.abs n).

Definition float : Type := Z * Z.

(** [float(n)] for a Python int [n]. *)
Definition of_int (n : Z) : float := (round53 n, 0).

(** [x * y]. *)
Definition mul (x y : float) : float :=
  (round53 (fst x * fst y), snd x + snd y).

(** [math.floor(x)]. *)
Definition floor (x : float) : Z :=
  if 0 <=? snd x then fst x * 2 ^ snd x else fst x / 2 ^ (- snd x).

(** The literal [0.01], that is [0x1.47ae147ae147bp-7]. *)
Definition lit_0_01 : float := (5764607523034235, -59).

(** The same computation through the Standard Library's specification of
    IEEE-754 arithmetic, at binary64. *)
Definition prec : Z := 53.
Definition emax : Z := 1024.

Definition SF_of_int (n : Z) : spec_float :=
  binary_normalize prec emax n 0 false.

Definition SF_0_01 : spec_float := S754_finite false 5764607523034235 (-59).

Definition SF_floor (x : spec_float) : option Z :=
  match x with
  | S754_zero _ => Some 0
  | S754_finite s m e =>
      let v := cond_Zopp s (Zpos m) in
      Some (if 0 <=? e then v * 2 ^ e else v / 2 ^ (- e))
  | _ => None
  end.

End Float.

(** ** The percentile report of [FFLogs.dps] *)

Inductive Exception : Type :=
  | IndexError
  | KeyError
  | TypeError
  | ValueError
  | OverflowError
  | FileNotFoundError
  | NoSectionError
  | NoOptionError
  | InterpolationError
  | AuthException
  | DataException_bad_response   (* DataException('服务器没有正确返回数据') *)
  | DataException_no_data        (* DataException('网站里没有数据') *)
  | TimeoutError                 (* asyncio.TimeoutError *)
  | UnicodeDecodeError.

Inductive result (A : Type) : Type :=
  | Ok (a : A)
  | Raise (e : Exception).
Arguments Ok {A} a.
Arguments Raise {A} e.

Definition percentage_list : list Z := [100; 99; 95; 75; 50; 25; 10].

(** [number = math.floor(total * 0.01 * (100 - perc))] *)
Definition number (total perc : Z) : Z :=
  Float.floor
    (Float.mul (Float.mul (Float.of_int total) Float.lit_0_01)
               (Float.of_int (100 - perc))).

(** [rankings[number]] on a Python list: negative indices count from the
    end, anything outside raises [IndexError]. *)
Definition getitem {A} (l : list A) (i : Z) : result A :=
  let n := Z.of_nat (length l) in
  let j := if i <? 0 then i + n else i in
  if (0 <=? j) && (j <? n)
  then match l !! Z.to_nat j with Some a => Ok a | None => Raise IndexError end
  else Raise IndexError.

(** The rows appended to the reply, one per entry of [percentage_list]:
    the percentage and the value printed after it. *)
Fixpoint percentile_rows_of (rankings : list Q) (percs : list Z)
  : result (list (Z * Q)) :=
  match percs with
  | [] => Ok []
  | perc :: rest =>
      match getitem rankings (number (Z.of_nat (length rankings)) perc) with
      | Raise e => Raise e
      | Ok dps =>
          match percentile_rows_of rankings rest with
          | Raise e => Raise e
          | Ok rows => Ok ((perc, dps) :: rows)
          end
      end
  end.

Definition percentile_rows (rankings : list Q) : result (list (Z * Q)) :=
  percentile_rows_of rankings percentage_list.

(** ** Dates ([datetime.datetime], naive) *)

Record datetime : Type := mk_datetime {
  year : Z; month : Z; day : Z;
  hour : Z; minute : Z; second : Z; microsecond : Z
}.

Definition MINYEAR : Z := 1.
Definition MAXYEAR : Z := 9999.

Definition is_leap (y : Z) : bool :=
  (y mod 4 =? 0) && (negb (y mod 100 =? 0) || (y mod 400 =? 0)).

Definition days_in_month (y m : Z) : Z :=
  if m =? 2 then (if is_leap y then 29 else 28)
  else if (m =? 4) || (m =? 6) || (m =? 9) || (m =? 11) then 30
  else 31.

(** A value the [datetime] constructor accepts. *)
Definition valid_datetime (d : datetime) : Prop :=
  MINYEAR <= year d <= MAXYEAR /\ 1 <= month d <= 12 /\
  1 <= day d <= days_in_month (year d) (month d) /\
  0 <= hour d < 24 /\ 0 <= minute d < 60 /\ 0 <= second d < 60 /\
  0 <= microsecond d < 1000000.

Definition with_date (d : datetime) (y m dd : Z) : datetime :=
  mk_datetime y m dd (hour d) (minute d) (second d) (microsecond d).

(** [d + timedelta(days=1)] *)
Definition add_one_day (d : datetime) : result datetime :=
  if day d <? days_in_month (year d) (month d)
  then Ok (with_date d (year d) (month d) (day d + 1))
  else if month d <? 12 then Ok (with_date d (year d) (month d + 1) 1)
  else if year d <? MAXYEAR then Ok (with_date d (year d + 1) 1 1)
  else Raise OverflowError.

(** [d - timedelta(days=1)] *)
Definition sub_one_day (d : datetime) : result datetime :=
  if 1 <? day d then Ok (with_date d (year d) (month d) (day d - 1))
  else if 1 <? month d
  then Ok (with_date d (year d) (month d - 1)
                     (days_in_month (year d) (month d - 1)))
  else if MINYEAR <? year d then Ok (with_date d (year d - 1) 12 31)
  else Raise OverflowError.

(** [datetime(year=d.year, month=d.month, day=d.day)] *)
Definition midnight (d : datetime) : datetime :=
  mk_datetime (year d) (month d) (day d) 0 0 0 0.

Definition fields (d : datetime) : list Z :=
  [year d; month d; day d; hour d; minute d; second d; microsecond d].

Fixpoint lex_lt (a b : list Z) : bool :=
  match a, b with
  | x :: a', y :: b' => (x <? y) || ((x =? y) && lex_lt a' b')
  | _, _ => false
  end.

(** [a < b] *)
Definition datetime_lt (a b : datetime) : bool := lex_lt (fields a) (fields b).

Definition digit (n : Z) : ascii := pretty_N_char (Z.to_N (n mod 10)).

Definition pad2 (n : Z) : string :=
  String (digit (n / 10)) (String (digit n) EmptyString).

Definition pad4 (n : Z) : string :=
  String (digit (n / 1000)) (String (digit (n / 100)) (pad2 n)).

(** [d.strftime("%Y%m%d")] *)
Definition strftime_Ymd (d : datetime) : string :=
  pad4 (year d) +:+ pad2 (month d) +:+ pad2 (day d).

(** ** [configparser.ConfigParser]

    The parser keeps the options of the [DEFAULT] section apart from those
    of the named sections.  What the library does to a value when it is
    stored and when it is read (interpolation of [%] sequences) and to an
    option name (case folding) is a parameter of the model. *)

Record Interpolation : Type := {
  optionxform : string -> string;
  (** the value [get] returns for a stored string, given the options that
      are visible from the section; [None] when the library raises an
      [InterpolationError] *)
  before_get : gmap string string -> string -> option string;
  (** whether [set] accepts the value *)
  before_set : string -> bool
}.

(** An instance: option names folded to lower case (ASCII), values
    without a [%] stored and returned as they are, which is what
    [BasicInterpolation] does with them, and any other value refused. *)
Definition lower_ascii (c : ascii) : ascii :=
  let n := nat_of_ascii c in
  if ((65 <=? n) && (n <=? 90))%nat then ascii_of_nat (n + 32) else c.

Fixpoint lower (s : string) : string :=
  match s with
  | EmptyString => EmptyString
  | String c s' => String (lower_ascii c) (lower s')
  end.

Fixpoint has_percent (s : string) : bool :=
  match s with
  | EmptyString => false
  | String c s' => Ascii.eqb c "%" || has_percent s'
  end.

Definition plain_interpolation : Interpolation := {|
  optionxform := lower;
  before_get := fun _ value => if has_percent value then None else Some value;
  before_set := fun value => negb (has_percent value)
|}.

Record ConfigParser : Type := mk_ConfigParser {
  _defaults : gmap string string;
  _sections : gmap string (gmap string string)
}.

Definition default_section : string := "DEFAULT".

(** [section in config.sections()] *)
Definition in_sections (cp : ConfigParser) (section : string) : bool :=
  bool_decide (is_Some (_sections cp !! section)).

(** [config.get(section, option)] *)
Definition cp_get (I : Interpolation) (cp : ConfigParser)
    (section option_ : string) : result string :=
  let lookup_in (sectiondict : gmap string string) :=
    let d := sectiondict ∪ _defaults cp in
    match d !! optionxform I option_ with
    | None => Raise NoOptionError
    | Some value =>
        match before_get I d value with
        | Some v => Ok v
        | None => Raise InterpolationError
        end
    end in
  match _sections cp !! section with
  | Some sectiondict => lookup_in sectiondict
  | None =>
      if String.eqb section default_section then lookup_in ∅
      else Raise NoSectionError
  end.

(** [config[section] = {}] *)
Definition cp_setitem_empty (cp : ConfigParser) (section : string)
  : ConfigParser :=
  if String.eqb section default_section
  then mk_ConfigParser ∅ (_sections cp)
  else mk_ConfigParser (_defaults cp) (<[section := ∅]> (_sections cp)).

(** [config.set(section, option, value)] *)
Definition cp_set (I : Interpolation) (cp : ConfigParser)
    (section option_ value : string) : result ConfigParser :=
  if negb (String.eqb value EmptyString) && negb (before_set I value)
  then Raise ValueError
  else if String.eqb section EmptyString || String.eqb section default_section
  then Ok (mk_ConfigParser (<[optionxform I option_ := value]> (_defaults cp))
                           (_sections cp))
  else match _sections cp !! section with
       | None => Raise NoSectionError
       | Some sectdict =>
           Ok (mk_ConfigParser (_defaults cp)
                 (<[section := <[optionxform I option_ := value]> sectdict]>
                    (_sections cp)))
       end.

(** ** Ranking records *)

Record ranking : Type := mk_ranking {
  total : Q;
  other_per_second_amount : Q;
  raw_dps : Q;
  (** the attributes the program passes through untouched *)
  extra : string
}.

(** ** [PluginData] (plugin.py)

    [config_file] is what [_save_config] wrote last (the content of the
    [.ini] file); [files] are the [.pkl] files of the plugin's directory,
    each holding the list [save_pkl] pickled into it, under the name that
    the program hands to [open].  The names the program builds are those
    of [cache_name], which hold no path separator, so that a name stands
    for one file of the directory. *)

Record PluginData : Type := mk_PluginData {
  config : ConfigParser;
  config_file : ConfigParser;
  files : gmap string (list ranking)
}.

Definition _save_config (d : PluginData) : PluginData :=
  mk_PluginData (config d) (config d) (files d).

Definition with_config (d : PluginData) (cp : ConfigParser) : PluginData :=
  mk_PluginData cp (config_file d) (files d).

(** [exists(filename)] *)
Definition exists_ (d : PluginData) (filename : string) : bool :=
  bool_decide (is_Some (files d !! filename)).

(** [save_pkl(data, filename)] *)
Definition save_pkl (d : PluginData) (data : list ranking) (filename : string)
  : PluginData :=
  mk_PluginData (config d) (config_file d)
                (<[filename +:+ ".pkl" := data]> (files d)).

(** [load_pkl(filename)]; a missing file makes [open] raise. *)
Definition load_pkl (d : PluginData) (filename : string)
  : result (list ranking) :=
  match files d !! (filename +:+ ".pkl") with
  | Some data => Ok data
  | None => Raise FileNotFoundError
  end.

(** The clause [except (configparser.NoSectionError,
    configparser.NoOptionError)]. *)
Definition missing_entry (e : Exception) : bool :=
  match e with
  | NoSectionError | NoOptionError => true
  | _ => false
  end.

(** [config_get(section, option, fallback=None)]; [fallback] is a string
    or [None], and [not fallback] holds of [None] and of the empty
    string. *)
Definition config_get (I : Interpolation) (section option_ : string)
    (fallback : option string) (d : PluginData) : result string * PluginData :=
  match cp_get I (config d) section option_ with
  | Ok value => (Ok value, d)
  | Raise e =>
      match missing_entry e, fallback with
      | false, _ => (Raise e, d)
      | true, None => (Raise e, d)
      | true, Some value =>
          if String.eqb value EmptyString then (Raise e, d)
          else
            (* 保存默认配置 *)
            let cp1 := if negb (in_sections (config d) section)
                       then cp_setitem_empty (config d) section
                       else config d in
            match cp_set I cp1 section option_ value with
            | Raise e' => (Raise e', with_config d cp1)
            | Ok cp2 => (Ok value, _save_config (with_config d cp2))
            end
      end
  end.

(** [config_set(section, option, value)] *)
Definition config_set (I : Interpolation) (section option_ value : string)
    (d : PluginData) : result unit * PluginData :=
  let cp1 := if negb (in_sections (config d) section)
             then cp_setitem_empty (config d) section
             else config d in
  match cp_set I cp1 section option_ value with
  | Raise e => (Raise e, with_config d cp1)
  | Ok cp2 => (Ok tt, _save_config (with_config d cp2))
  end.

(** ** The remote service (api.py)

    What one GET request can come back with.  A body that parses as JSON is
    classified by what the program does with it: whether it is true in a
    boolean context, and whether ['hasMorePages'] and ['rankings'] can be
    read from it.  A request can also end in an exception raised by the
    HTTP client or by the decoding of the body: [aiohttp.ClientError] and
    [json.JSONDecodeError] have cases of their own, an exception of any
    other class is carried by [request_raises] and [body_raises]. *)

Inductive payload : Type :=
  | json_page (hasMorePages : bool) (rankings : list ranking)
      (* an object with both keys *)
  | json_falsy
      (* null, false, 0, an empty string, array or object *)
  | json_object_without_key
      (* a non-empty object that lacks one of the two keys *)
  | json_not_an_object.
      (* a non-empty array or string, a non-zero number, true *)

Inductive body : Type :=
  | body_json (p : payload)
  | body_not_json      (* json.loads raises json.JSONDecodeError *)
  | body_aborted       (* response.text() raises aiohttp.ClientError *)
  | body_raises (e : Exception).
      (* response.text() or json.loads raises an exception of another
         class: UnicodeDecodeError for bytes that are no text,
         asyncio.TimeoutError when the time allowed is over *)

Inductive response : Type :=
  | http_response (status : Z) (b : body)
  | client_error       (* sess.get raises aiohttp.ClientError *)
  | request_raises (e : Exception).
      (* sess.get raises an exception of another class:
         asyncio.TimeoutError when the time allowed is over *)

(** The surroundings of the program: the library behaviour left open above,
    Python's [int] on strings, the service (the response to each URL), the
    successive readings of [datetime.now()] and [datetime.timestamp()]
    truncated by [int]. *)
Record Env : Type := {
  interpolation : Interpolation;
  int : string -> result Z;
  service : string -> response;
  now : nat -> datetime;
  timestamp : datetime -> Z
}.

(** The [FFLogs] object with its [PluginData], and two ghost fields: the
    URLs requested so far, oldest first, and how often the clock was
    read. *)
Record FFLogs : Type := mk_FFLogs {
  range : Z;
  data : PluginData;
  requests : list string;
  clock_reads : nat
}.

Definition base_url : string := "https://cn.fflogs.com/v1".

Definition with_data (self : FFLogs) (d : PluginData) : FFLogs :=
  mk_FFLogs (range self) d (requests self) (clock_reads self).

(** Computations on the object: [None] when a loop is cut off by the fuel,
    else the value returned or the exception raised, and the object
    afterwards. *)
Definition M (A : Type) : Type := FFLogs -> option (result A * FFLogs).

Definition ret {A} (a : A) : M A := fun self => Some (Ok a, self).
Definition raise {A} (e : Exception) : M A := fun self => Some (Raise e, self).
Definition bind {A B} (m : M A) (k : A -> M B) : M B :=
  fun self =>
    match m self with
    | None => None
    | Some (Raise e, self') => Some (Raise e, self')
    | Some (Ok a, self') => k a self'
    end.
Definition lift {A} (r : result A) : M A := fun self => Some (r, self).

Notation "'do' x <- m ; k" := (bind m (fun x => k))
  (at level 10, x name, m at level 100, k at level 200).

(** [FFLogs.__init__], given the [PluginData] it opens. *)
Definition init (E : Env) (d : PluginData) : result FFLogs :=
  match config_get (interpolation E) "fflogs" "range" (Some "14"%string) d with
  | (Raise e, _) => Raise e
  | (Ok value, d') =>
      match int E value with
      | Raise e => Raise e
      | Ok n => Ok (mk_FFLogs n d' [] 0)
      end
  end.

(** The property [token]: [None] stands for Python's [None]. *)
Definition token (E : Env) : M (option string) :=
  fun self =>
    match config_get (interpolation E) "fflogs" "token" None (data self) with
    | (Ok value, d') => Some (Ok (Some value), with_data self d')
    | (Raise _, d') => Some (Ok None, with_data self d')   (* except: *)
    end.

(** The setter of [token]. *)
Definition set_token (E : Env) (value : string) : M unit :=
  fun self =>
    match config_set (interpolation E) "fflogs" "token" value (data self) with
    | (r, d') => Some (r, with_data self d')
    end.

(** The clause [except (aiohttp.ClientError, json.JSONDecodeError,
    KeyError)] of [_http], on the exceptions of [Exception]: of these it
    names [KeyError].  ([AuthException] and [DataException] come from
    [exceptions.py] and are taken not to derive from a class the clause
    names.) *)
Definition call_failed (e : Exception) : bool :=
  match e with
  | KeyError => true
  | _ => false
  end.

(** [_http(url)] with [is_json=True]: [None] is the [return None] of the
    function, [Some p] its [return resp_payload].  An exception raised
    inside the [try] leaves the function unless the [except] clause names
    its class. *)
Definition _http (E : Env) (url : string) : M (option payload) :=
  fun self =>
    let self' := mk_FFLogs (range self) (data self) (requests self ++ [url])
                           (clock_reads self) in
    match service E url with
    | client_error => Some (Ok None, self')
    | request_raises e =>
        if call_failed e then Some (Ok None, self') else Some (Raise e, self')
    | http_response status b =>
        if status =? 401 then Some (Raise AuthException, self')
        else if negb (status =? 200) then Some (Ok None, self')
        else match b with
             | body_json p => Some (Ok (Some p), self')
             | body_not_json | body_aborted => Some (Ok None, self')
             | body_raises e =>
                 if call_failed e then Some (Ok None, self')
                 else Some (Raise e, self')
             end
    end.

(** [not res] *)
Definition not_ (res : option payload) : bool :=
  match res with
  | None | Some json_falsy => true
  | Some _ => false
  end.

(** [res['hasMorePages']] and [res['rankings']] *)
Definition subscript_hasMorePages (res : option payload) : result bool :=
  match res with
  | Some (json_page hasMorePages _) => Ok hasMorePages
  | Some json_object_without_key => Raise KeyError
  | _ => Raise TypeError
  end.

Definition subscript_rankings (res : option payload)
  : result (list ranking) :=
  match res with
  | Some (json_page _ rankings) => Ok rankings
  | Some json_object_without_key => Raise KeyError
  | _ => Raise TypeError
  end.

(** [str(x)] inside an f-string, for the token. *)
Definition str_token (t : option string) : string :=
  match t with Some s => s | None => "None" end.

Definition rankings_url (boss difficulty job page start_timestamp
    end_timestamp : Z) (tok : option string) : string :=
  base_url +:+ "/rankings/encounter/" +:+ pretty boss
    +:+ "?metric=rdps&difficulty=" +:+ pretty difficulty
    +:+ "&spec=" +:+ pretty job +:+ "&page=" +:+ pretty page
    +:+ "&filter=date." +:+ pretty start_timestamp
    +:+ "." +:+ pretty end_timestamp
    +:+ "&api_key=" +:+ str_token tok.

(** The loop [while hasMorePages: ...] of [_get_one_day_ranking], entered
    with [hasMorePages] true; one unit of fuel per iteration. *)
Fixpoint fetch_pages (E : Env) (fuel : nat)
    (boss difficulty job start_timestamp end_timestamp : Z)
    (page : Z) (rankings : list ranking) : M (list ranking) :=
  match fuel with
  | O => fun _ => None
  | S fuel' =>
      do tok <- token E;
      do res <- _http E (rankings_url boss difficulty job page
                                   start_timestamp end_timestamp tok);
      if not_ res then raise DataException_bad_response
      else
        do hasMorePages <- lift (subscript_hasMorePages res);
        do more <- lift (subscript_rankings res);
        let rankings := rankings ++ more in
        let page := page + 1 in
        if hasMorePages
        then fetch_pages E fuel' boss difficulty job start_timestamp
                         end_timestamp page rankings
        else ret rankings
  end.

(** [cache_name] of [_get_one_day_ranking] *)
Definition cache_name (boss difficulty job : Z) (date : datetime) : string :=
  pretty boss +:+ "_" +:+ pretty difficulty +:+ "_" +:+ pretty job
    +:+ "_" +:+ strftime_Ymd date.

(** [datetime.now()] *)
Definition datetime_now (E : Env) : M datetime :=
  fun self =>
    Some (Ok (now E (clock_reads self)),
          mk_FFLogs (range self) (data self) (requests self)
                    (S (clock_reads self))).

Definition _get_one_day_ranking (E : Env) (fuel : nat)
    (boss difficulty job : Z) (date : datetime) : M (list ranking) :=
  fun self =>
    (* 查看是否有缓存 *)
    if exists_ (data self) (cache_name boss difficulty job date +:+ ".pkl")
    then lift (load_pkl (data self) (cache_name boss difficulty job date)) self
    else
      (do end_date <- lift (add_one_day date);
       (* 转换成 API 支持的时间戳格式 *)
       let start_timestamp := timestamp E date * 1000 in
       let end_timestamp := timestamp E end_date * 1000 in
       do rankings <- fetch_pages E fuel boss difficulty job start_timestamp
                               end_timestamp 1 [];
       (* 如果获取数据的日期不是当天，则缓存数据 *)
       do current <- datetime_now E;
       if datetime_lt end_date current
       then fun self' =>
              Some (Ok rankings,
                    with_data self'
                      (save_pkl (data self') rankings
                                (cache_name boss difficulty job date)))
       else ret rankings) self.

(** [list.sort(key=key, reverse=True)]: a stable sort into descending
    order, elements with equal keys staying in their order. *)
Definition Qltb (a b : Q) : bool := negb (Qle_bool b a).

Fixpoint insert_desc {A} (key : A -> Q) (x : A) (l : list A) : list A :=
  match l with
  | [] => [x]
  | y :: l' =>
      if Qltb (key x) (key y) then y :: insert_desc key x l' else x :: l
  end.

Definition sort_desc {A} (key : A -> Q) (l : list A) : list A :=
  foldr (insert_desc key) [] l.

(** What [rankings] holds at the end of [_get_whole_ranking]: numbers once
    one of the three branches has run, the records themselves otherwise. *)
Inductive projected : Type :=
  | numbers (l : list Q)
  | records (l : list ranking).

(** [not rankings] *)
Definition is_empty (p : projected) : bool :=
  match p with
  | numbers [] | records [] => true
  | _ => false
  end.

(** 根据 DPS 类型进行排序，并提取数据 *)
Definition sort_and_extract (dps_type : string) (rankings : list ranking)
  : projected :=
  if String.eqb dps_type "rdps"
  then numbers (map total (sort_desc total rankings))
  else if String.eqb dps_type "adps"
  then numbers (map other_per_second_amount
                    (sort_desc other_per_second_amount rankings))
  else if String.eqb dps_type "pdps"
  then numbers (map raw_dps (sort_desc raw_dps rankings))
  else records rankings.

(** The loop [for _ in range(self.range): ...] of [_get_whole_ranking]. *)
Fixpoint each_day (E : Env) (fuel : nat) (boss difficulty job : Z)
    (n : nat) (date : datetime) (rankings : list ranking)
  : M (list ranking) :=
  match n with
  | O => ret rankings
  | S n' =>
      do more <- _get_one_day_ranking E fuel boss difficulty job date;
      let rankings := rankings ++ more in
      do date <- lift (sub_one_day date);
      each_day E fuel boss difficulty job n' date rankings
  end.

Definition _get_whole_ranking (E : Env) (fuel : nat)
    (boss difficulty job : Z) (dps_type : string) (date : datetime)
  : M projected :=
  fun self =>
    (let date := midnight date in
     do rankings <- each_day E fuel boss difficulty job
                          (Z.to_nat (range self)) date [];
     let rankings := sort_and_extract dps_type rankings in
     if is_empty rankings then raise DataException_no_data
     else ret rankings) self.

(** ** Vocabulary of the properties *)

(** A list in descending order. *)
Definition descending (l : list Q) : Prop := Sorted (fun a b => (b <= a)%Q) l.

Definition clamp (lo hi i : Z) : Z := Z.max lo (Z.min hi i).

(** The percentile table as the specification words it: for each
    percentage [P] the value at the index computed from [P], the index
    clamped to the range of the list. *)
Definition percentile_table (values : list Q) : list (Z * Q) :=
  let total := Z.of_nat (length values) in
  map (fun P =>
         (P, nth (Z.to_nat (clamp 0 (total - 1) (number total P))) values 0%Q))
      percentage_list.

(** The index through the Standard Library's IEEE-754 operations. *)
Definition IEEE_number (total perc : Z) : option Z :=
  Float.SF_floor
    (SFmul Float.prec Float.emax
       (SFmul Float.prec Float.emax (Float.SF_of_int total) Float.SF_0_01)
       (Float.SF_of_int (100 - perc))).

Definition agrees_with_IEEE (total : Z) : bool :=
  forallb (fun perc =>
             match IEEE_number total perc with
             | Some i => i =? number total perc
             | None => false
             end) percentage_list.

(** The entry is absent: [config.get] raises [NoSectionError] or
    [NoOptionError]. *)
Definition absent (I : Interpolation) (cp : ConfigParser)
    (section option_ : string) : Prop :=
  cp_get I cp section option_ = Raise NoSectionError \/
  cp_get I cp section option_ = Raise NoOptionError.

Fixpoint has_char (c : ascii) (s : string) : bool :=
  match s with
  | EmptyString => false
  | String c' s' => Ascii.eqb c' c || has_char c s'
  end.

(** The token as the property [token] returns it. *)
Definition current_token (E : Env) (self : FFLogs) : option string :=
  match cp_get (interpolation E) (config (data self)) "fflogs" "token" with
  | Ok value => Some value
  | Raise _ => None
  end.

(** The object once [urls] have been requested. *)
Definition log_requests (self : FFLogs) (urls : list string) : FFLogs :=
  mk_FFLogs (range self) (data self) (requests self ++ urls) (clock_reads self).

(** The object once the clock has been read. *)
Definition tick (self : FFLogs) : FFLogs :=
  mk_FFLogs (range self) (data self) (requests self) (S (clock_reads self)).

(** What one iteration of the loop makes of a response. *)
Inductive page_outcome : Type :=
  | more_pages (rankings : list ranking)
  | last_page (rankings : list ranking)
  | failed (e : Exception).

Definition page_outcome_of (r : response) : page_outcome :=
  match r with
  | client_error => failed DataException_bad_response
  | request_raises e =>
      if call_failed e then failed DataException_bad_response else failed e
  | http_response status b =>
      if status =? 401 then failed AuthException
      else if negb (status =? 200) then failed DataException_bad_response
      else match b with
           | body_json (json_page true rankings) => more_pages rankings
           | body_json (json_page false rankings) => last_page rankings
           | body_json json_falsy => failed DataException_bad_response
           | body_json json_object_without_key => failed KeyError
           | body_json json_not_an_object => failed TypeError
           | body_not_json | body_aborted => failed DataException_bad_response
           | body_raises e =>
               if call_failed e then failed DataException_bad_response
               else failed e
           end
  end.

(** A page that carries [rankings] and says whether more follow. *)
Definition page_response (hasMorePages : bool) (rankings : list ranking)
  : response :=
  http_response 200 (body_json (json_page hasMorePages rankings)).

(** The page numbers [page], [page + 1], ... ([n] of them). *)
Fixpoint pages_from (page : Z) (n : nat) : list Z :=
  match n with
  | O => []
  | S n' => page :: pages_from (page + 1) n'
  end.

(** The response carries status 401. *)
Definition unauthorized (r : response) : Prop :=
  exists b, r = http_response 401 b.

(** The request or the reading of the body raises the exception [e]. *)
Definition raises (r : response) (e : Exception) : Prop :=
  r = request_raises e \/ r = http_response 200 (body_raises e).

(** The failures that [_http] and the test [if not res] turn into a
    [DataException]: an exception that the [except] clause of [_http]
    names (no response at all, a body that breaks off, a body that is not
    JSON), a status other than 200 and 401, and a JSON value that is false
    in a boolean context. *)
Definition bad_response (r : response) : Prop :=
  r = client_error
  \/ (exists status b,
         r = http_response status b /\ status <> 200 /\ status <> 401)
  \/ r = http_response 200 body_aborted
  \/ r = http_response 200 body_not_json
  \/ r = http_response 200 (body_json json_falsy)
  \/ (exists e, raises r e /\ call_failed e = true).

(** A JSON value that is true in a boolean context and from which
    ['hasMorePages'] and ['rankings'] cannot be read; the exception is the
    one the subscription raises. *)
Definition misshapen (r : response) (e : Exception) : Prop :=
  (r = http_response 200 (body_json json_object_without_key) /\ e = KeyError)
  \/ (r = http_response 200 (body_json json_not_an_object) /\ e = TypeError).

(** An exception of the request that the [except] clause of [_http] does
    not name. *)
Definition escapes (r : response) (e : Exception) : Prop :=
  raises r e /\ call_failed e = false.

Definition url_of (E : Env) (boss difficulty job start_timestamp
    end_timestamp : Z) (self : FFLogs) (page : Z) : string :=
  rankings_url boss difficulty job page start_timestamp end_timestamp
               (current_token E self).

(** The file that holds the cached records of a day. *)
Definition cache_file (boss difficulty job : Z) (date : datetime) : string :=
  (cache_name boss difficulty job date +:+ ".pkl")%string.

(** The URL of a page of the day [date], as [_get_one_day_ranking] builds
    it. *)
Definition day_url (E : Env) (boss difficulty job : Z)
    (date end_date : datetime) (self : FFLogs) (page : Z) : string :=
  url_of E boss difficulty job (timestamp E date * 1000)
         (timestamp E end_date * 1000) self page.

(** States reached by further calls of [_get_one_day_ranking], whatever
    their arguments and surroundings. *)
Inductive fetched_from : FFLogs -> FFLogs -> Prop :=
  | fetched_refl self : fetched_from self self
  | fetched_step self self1 self2 E fuel boss difficulty job date r :
      _get_one_day_ranking E fuel boss difficulty job date self
      = Some (r, self1) ->
      fetched_from self1 self2 ->
      fetched_from self self2.

(** The day before, as the loop steps to it. *)
Definition day_before (d : datetime) : datetime :=
  match sub_one_day d with Ok d' => d' | Raise _ => d end.

(** The days [anchor], [anchor - 1], ..., [anchor - (n - 1)]. *)
Fixpoint window (anchor : datetime) (n : nat) : list datetime :=
  match n with
  | O => []
  | S n' => anchor :: window (day_before anchor) n'
  end.

(** The day has a day before it ([datetime.min] has none). *)
Definition has_day_before (d : datetime) : Prop :=
  exists d', sub_one_day d = Ok d'.

(** The records of the given days, one day after the other, in one list. *)
Fixpoint merge_days (E : Env) (fuel : nat) (boss difficulty job : Z)
    (days : list datetime) : M (list ranking) :=
  match days with
  | [] => ret []
  | d :: rest =>
      do rankings <- _get_one_day_ranking E fuel boss difficulty job d;
      do more <- merge_days E fuel boss difficulty job rest;
      ret (rankings ++ more)
  end.

(** The field a metric selects. *)
Definition metric_field (dps_type : string) : option (ranking -> Q) :=
  if String.eqb dps_type "rdps" then Some total
  else if String.eqb dps_type "adps" then Some other_per_second_amount
  else if String.eqb dps_type "pdps" then Some raw_dps
  else None.

(** Aggregation as the specification words it: merge the days of the
    window, fail when nothing was found, else sort by the field and keep
    the field's values. *)
Definition aggregate (E : Env) (fuel : nat) (boss difficulty job : Z)
    (field : ranking -> Q) (days : list datetime) : M (list Q) :=
  do merged <- merge_days E fuel boss difficulty job days;
  match merged with
  | [] => raise DataException_no_data
  | _ => ret (map field (sort_desc field merged))
  end.

Definition as_numbers (r : option (result (list Q) * FFLogs))
  : option (result projected * FFLogs) :=
  match r with
  | None => None
  | Some (Ok l, self) => Some (Ok (numbers l), self)
  | Some (Raise e, self) => Some (Raise e, self)
  end.

(** Every day of the list yields zero records; the second object is the one
    left behind by the last day. *)
Inductive days_yield_nothing (E : Env) (fuel : nat) (boss difficulty job : Z)
  : list datetime -> FFLogs -> FFLogs -> Prop :=
  | nothing_nil self : days_yield_nothing E fuel boss difficulty job [] self self
  | nothing_cons d rest self self1 self2 :
      _get_one_day_ranking E fuel boss difficulty job d self
      = Some (Ok [], self1) ->
      days_yield_nothing E fuel boss difficulty job rest self1 self2 ->
      days_yield_nothing E fuel boss difficulty job (d :: rest) self self2.

(** ** Sample surroundings *)

Definition empty_data : PluginData :=
  mk_PluginData (mk_ConfigParser ∅ ∅) (mk_ConfigParser ∅ ∅) ∅.

Definition sample (v : Z) : ranking := mk_ranking (inject_Z v) 0 0 EmptyString.

Definition ten_samples (first : Z) : list ranking :=
  map (fun i => sample (first + Z.of_nat i)) (seq 0 10).

Definition day_1 : datetime := mk_datetime 2019 6 30 0 0 0 0.
Definition day_2 : datetime := mk_datetime 2019 6 29 0 0 0 0.
Definition end_of_day_1 : datetime := mk_datetime 2019 7 1 0 0 0 0.
Definition noon_of_day_1 : datetime := mk_datetime 2019 6 30 12 0 0 0.

(** A service that answers the listed URLs and has nothing else. *)
Fixpoint answers (table : list (string * response)) (url : string)
  : response :=
  match table with
  | [] => http_response 404 body_not_json
  | (u, r) :: rest => if String.eqb url u then r else answers rest url
  end.

Definition sample_env (svc : string -> response) : Env := {|
  interpolation := plain_interpolation;
  int := fun s => if String.eqb s "14" then Ok 14 else Raise ValueError;
  service := svc;
  now := fun _ => mk_datetime 2019 7 9 12 0 0 0;
  timestamp := fun d => ((year d * 12 + month d) * 31 + day d) * 86400
|}.

Definition fresh (window_days : Z) : FFLogs :=
  mk_FFLogs window_days empty_data [] 0.

(** The URL of a page of [day_1], for boss 5, difficulty 100 and job 7. *)
Definition sample_url (page : Z) : string :=
  day_url (sample_env (answers [])) 5 100 7 day_1 end_of_day_1 (fresh 2) page.

(** Three pages of ten records, the third being the last. *)
Definition three_pages : Env :=
  sample_env
    (answers [(sample_url 1, page_response true (ten_samples 100));
              (sample_url 2, page_response true (ten_samples 200));
              (sample_url 3, page_response false (ten_samples 300))]).

(** One page, then an invalid credential. *)
Definition second_page_401 : Env :=
  sample_env
    (answers [(sample_url 1, page_response true (ten_samples 100));
              (sample_url 2, http_response 401 body_not_json)]).

(** One page, then an object that is no page: it has not the two keys
    (the body [{"error": "..."}], say). *)
Definition second_page_misshapen : Env :=
  sample_env
    (answers [(sample_url 1, page_response true (ten_samples 100));
              (sample_url 2,
               http_response 200 (body_json json_object_without_key))]).

(** A service that answers every request with such an object, and one
    whose requests all run out of time. *)
Definition error_object : Env :=
  sample_env (fun _ => http_response 200 (body_json json_object_without_key)).

Definition out_of_time : Env :=
  sample_env (fun _ => request_raises TimeoutError).

(** A service without any record: every page is the last and empty. *)
Definition no_records : Env := sample_env (fun _ => page_response false []).

(** The object after the three pages of [day_1] have been fetched and
    stored. *)
Definition after_three_pages : FFLogs :=
  mk_FFLogs 2
    (save_pkl empty_data
              (ten_samples 100 ++ ten_samples 200 ++ ten_samples 300)
              (cache_name 5 100 7 day_1))
    [sample_url 1; sample_url 2; sample_url 3] 1.

(** The example of the specification: two days, the first cached with the
    values 100 and 80, the second fetched and returning 90. *)
Definition two_days : Env :=
  sample_env
    (answers [(day_url (sample_env (answers [])) 5 100 7 day_2 day_1
                       (fresh 2) 1,
               page_response false [sample 90])]).

Definition first_day_cached : FFLogs :=
  mk_FFLogs 2
    (save_pkl empty_data [sample 100; sample 80] (cache_name 5 100 7 day_1))
    [] 0.

(** ** Further code of api.py *)

(** [zones()] and [classes()] *)
Definition zones (E : Env) : M (option payload) :=
  do tok <- token E;
  _http E (base_url +:+ "/zones?api_key=" +:+ str_token tok).

Definition classes (E : Env) : M (option payload) :=
  do tok <- token E;
  _http E (base_url +:+ "/classes?api_key=" +:+ str_token tok).

(** The lookup tables of [data.py], which the program takes as given:
    [get_boss_info] yields the boss id, the difficulty and the boss name,
    [get_job_name] the job id and the job name; an id of 0 is false in a
    boolean context. *)
Record Data : Type := {
  get_boss_info : string -> Z * Z * string;
  get_job_name : string -> Z * string
}.

(** What [dps] returns, before it is laid out as text. *)
Inductive reply : Type :=
  | not_found (name : string)
      (* f'找不到 {boss} 的数据，请换个名字试试', the same text for a job *)
  | type_not_found (dps_type : string)
      (* f'找不到类型为 {dps_type} 的数据，只支持 adps rdps pdps' *)
  | try_later (e : Exception)
      (* f'{e}，请稍后再试' *)
  | check_token (e : Exception)
      (* f'{e}，请检查 Token' *)
  | report (boss_name job_name dps_type : string) (total : nat)
           (rows : list (Z * Q)).
      (* the heading, the number of records and one line per percentage *)

(** The clause [except DataException]. *)
Definition is_DataException (e : Exception) : bool :=
  match e with
  | DataException_bad_response | DataException_no_data => true
  | _ => false
  end.

(** The clause [except AuthException]. *)
Definition is_AuthException (e : Exception) : bool :=
  match e with
  | AuthException => true
  | _ => false
  end.

(** [dps_type not in ['adps', 'rdps', 'pdps']] *)
Definition not_in_types (dps_type : string) : bool :=
  negb (String.eqb dps_type "adps" || String.eqb dps_type "rdps"
        || String.eqb dps_type "pdps").

(** The end of [dps]: the number of records and the rows; [float] of a
    record that is not a number raises [TypeError]. *)
Definition report_of (boss_name job_name dps_type : string)
    (rankings : projected) : result reply :=
  match rankings with
  | numbers l =>
      match percentile_rows l with
      | Raise e => Raise e
      | Ok rows => Ok (report boss_name job_name dps_type (length l) rows)
      end
  | records l =>
      match getitem l (number (Z.of_nat (length l)) 100) with
      | Raise e => Raise e
      | Ok _ => Raise TypeError
      end
  end.

(** [dps(boss, job, dps_type)] *)
Definition dps (E : Env) (D : Data) (fuel : nat) (boss job dps_type : string)
  : M reply :=
  let '(boss_id, difficulty, boss_name) := get_boss_info D boss in
  if boss_id =? 0 then ret (not_found boss)
  else
    let '(job_id, job_name) := get_job_name D job in
    if job_id =? 0 then ret (not_found job)
    else if not_in_types dps_type then ret (type_not_found dps_type)
    else
      (* 排名从前一天开始排，因为今天的数据并不全 *)
      do current <- datetime_now E;
      do date <- lift (sub_one_day current);
      fun self =>
        match _get_whole_ranking E fuel boss_id difficulty job_id dps_type
                                 date self with
        | None => None
        | Some (Raise e, self') =>
            if is_DataException e then Some (Ok (try_later e), self')
            else if is_AuthException e then Some (Ok (check_token e), self')
            else Some (Raise e, self')
        | Some (Ok rankings, self') =>
            Some (report_of boss_name job_name dps_type rankings, self')
        end.

(** ** [Plugin] and [PluginManager] (plugin.py)

    The bot is the program's surroundings: of it the model keeps the calls
    it receives, oldest first. *)

Module Manager.

Inductive MessageType : Type := All | Group | Private.

(** [event.value] *)
Definition value (t : MessageType) : string :=
  match t with
  | All => "message"
  | Group => "message.group"
  | Private => "message.private"
  end.

(** A [Plugin] object as the base class has it: its name and the events
    it was built with. *)
Record Plugin : Type := mk_Plugin {
  name : string;
  _events : list MessageType
}.

Inductive bot_call : Type :=
  | subscribe (event : string) (handler : Plugin)
  | unsubscribe (event : string) (handler : Plugin)
  | logger_info_enabled (name : string)     (* f'已启用 {name}' *)
  | logger_info_disabled (name : string)    (* f'已禁用 {name}' *)
  | logger_info_reloaded (name : string).   (* f'已重载 {name}' *)

Inductive Error : Type :=
  | PluginNotExistError
  | NotImplementedError
  | KeyError
  | Exception_only_Plugin        (* Exception('Only support Plugin class') *)
  | Exception_registered.        (* Exception('Plugin name already registered.') *)

(** [Plugin.enable] and [Plugin.disable]: the calls they make. *)
Definition Plugin_enable (p : Plugin) : list bot_call :=
  map (fun event => subscribe (value event) p) (_events p).

Definition Plugin_disable (p : Plugin) : list bot_call :=
  map (fun event => unsubscribe (value event) p) (_events p).

(** The manager: the dictionary [_plugin_list], in the order of insertion,
    and the calls the bot has received. *)
Record PluginManager : Type := mk_PluginManager {
  _plugin_list : list (string * Plugin);
  bot : list bot_call
}.

(** [PluginManager(bot)] *)
Definition new : PluginManager := mk_PluginManager [] [].

(** [self._plugin_list[name]] and [name in self._plugin_list] *)
Fixpoint dict_get (d : list (string * Plugin)) (key : string)
  : option Plugin :=
  match d with
  | [] => None
  | (k, p) :: d' => if String.eqb key k then Some p else dict_get d' key
  end.

Definition dict_in (d : list (string * Plugin)) (key : string) : bool :=
  match dict_get d key with Some _ => true | None => false end.

(** [d[key] = p] *)
Fixpoint dict_set (d : list (string * Plugin)) (key : string) (p : Plugin)
  : list (string * Plugin) :=
  match d with
  | [] => [(key, p)]
  | (k, q) :: d' =>
      if String.eqb key k then (k, p) :: d' else (k, q) :: dict_set d' key p
  end.

(** [_get_plugin_name(name)] *)
Definition _get_plugin_name (name : string) : string :=
  "plugins" +:+ "." +:+ name.

(** What [register] can be given. *)
Inductive object : Type :=
  | a_Plugin (p : Plugin)
  | another_object.

(** [register(plugin)] *)
Definition register (plugin : object) (self : PluginManager)
  : Error + PluginManager :=
  match plugin with
  | another_object => inl Exception_only_Plugin
  | a_Plugin p =>
      if dict_in (_plugin_list self) (name p) then inl Exception_registered
      else inr (mk_PluginManager (dict_set (_plugin_list self) (name p) p)
                                 (bot self))
  end.

(** [enable(name)], [disable(name)], [reload(name)], [status(name)]: the
    error raised, if any, and the manager afterwards. *)
Definition enable (name : string) (self : PluginManager)
  : option Error * PluginManager :=
  match dict_get (_plugin_list self) name with
  | Some p =>
      (None, mk_PluginManager (_plugin_list self)
               (bot self ++ Plugin_enable p ++ [logger_info_enabled name]))
  | None => (Some PluginNotExistError, self)
  end.

Definition disable (name : string) (self : PluginManager)
  : option Error * PluginManager :=
  match dict_get (_plugin_list self) name with
  | Some p =>
      (None, mk_PluginManager (_plugin_list self)
               (bot self ++ Plugin_disable p ++ [logger_info_disabled name]))
  | None => (Some PluginNotExistError, self)
  end.

Definition reload (name : string) (self : PluginManager)
  : option Error * PluginManager :=
  match dict_get (_plugin_list self) name with
  | Some p => (Some NotImplementedError, self)
  | None => (Some PluginNotExistError, self)
  end.

Definition status (name : string) (self : PluginManager)
  : option Error * PluginManager :=
  match dict_get (_plugin_list self) name with
  | Some p => (Some NotImplementedError, self)
  | None => (Some PluginNotExistError, self)
  end.

(** The loops of [enable_all] and [disable_all] over the keys of the
    dictionary. *)
Fixpoint for_each_key (method : Plugin -> list bot_call) (keys : list string)
    (self : PluginManager) : option Error * PluginManager :=
  match keys with
  | [] => (None, self)
  | key :: rest =>
      match dict_get (_plugin_list self) key with
      | None => (Some KeyError, self)
      | Some p =>
          for_each_key method rest
            (mk_PluginManager (_plugin_list self) (bot self ++ method p))
      end
  end.

Definition enable_all (self : PluginManager) : option Error * PluginManager :=
  for_each_key Plugin_enable (map fst (_plugin_list self)) self.

Definition disable_all (self : PluginManager) : option Error * PluginManager :=
  for_each_key Plugin_disable (map fst (_plugin_list self)) self.

(** Managers obtained from a new one by calls of [register] and by calls
    that leave the dictionary as it is, which is what all the other methods
    do. *)
Inductive registered_from_new : PluginManager -> Prop :=
  | from_new : registered_from_new new
  | from_register self plugin self' :
      registered_from_new self ->
      register plugin self = inr self' ->
      registered_from_new self'
  | from_call self self' :
      registered_from_new self ->
      _plugin_list self' = _plugin_list self ->
      registered_from_new self'.

End Manager.

(** ** Vocabulary of the further properties *)

(** The day is over at every reading of the clock. *)
Definition elapsed (E : Env) (d : datetime) : Prop :=
  exists end_date,
    add_one_day d = Ok end_date /\ forall k, datetime_lt end_date (now E k) = true.

(** A number that orders the days of the calendar. *)
Definition date_key (d : datetime) : Z :=
  (year d * 12 + month d) * 31 + day d.

(** ** Further sample surroundings *)

Definition sample_data : Data := {|
  get_boss_info := fun boss =>
    if String.eqb boss "titan" then (5, 100, "Titan"%string)
    else (0, 0, EmptyString);
  get_job_name := fun job =>
    if String.eqb job "bard" then (7, "Bard"%string) else (0, EmptyString)
|}.

(** A service with one record on every day. *)
Definition one_record : Env :=
  sample_env (fun _ => page_response false [sample 90]).

(** A service that refuses the credential. *)
Definition refused : Env :=
  sample_env (fun _ => http_response 401 body_not_json).

(** A service that never runs out of pages. *)
Definition endless : Env := sample_env (fun _ => page_response true [sample 90]).

(** An object with a window of one day, which is in the cache. *)
Definition one_day_cached_object : FFLogs :=
  mk_FFLogs 1
    (save_pkl empty_data [sample 100; sample 80] (cache_name 5 100 7 day_1))
    [] 0.

(** A store whose [DEFAULT] section holds two options. *)
Definition two_defaults : PluginData :=
  mk_PluginData
    (mk_ConfigParser {["a"%string := "1"%string; "b"%string := "2"%string]} ∅)
    (mk_ConfigParser {["a"%string := "1"%string; "b"%string := "2"%string]} ∅)
    ∅.

Definition chat_plugin : Manager.Plugin :=
  Manager.mk_Plugin "chat" [Manager.Group; Manager.Private].

Definition dice_plugin : Manager.Plugin :=
  Manager.mk_Plugin "dice" [Manager.All].

(** A manager with the two plugins, registered in this order. *)
Definition two_plugins : Manager.PluginManager :=
  Manager.mk_PluginManager [("chat"%string, chat_plugin); ("dice"%string, dice_plugin)] [].

(** * Properties *)

Import Float.

(** ** Rounding to 53 bits *)

Lemma rhe_bounds n s : 0 < s -> 0 <= n ->
  n / 2 ^ s <= round_half_even n s <= n / 2 ^ s + 1.
Proof.
  intros Hs Hn. unfold round_half_even.
  repeat match goal with |- context [if ?b then _ else _] => destruct b end; lia.
Qed.

Lemma pow2_split s : 0 < s -> 2 ^ s = 2 * 2 ^ (s - 1).
Proof. intros Hs. rewrite <- Z.pow_succ_r by lia. f_equal. lia. Qed.

Lemma rhe_error n s : 0 < s -> 0 <= n ->
  round_half_even n s * 2 ^ s <= n + 2 ^ (s - 1).
Proof.
  intros Hs Hn. unfold round_half_even.
  pose proof (pow2_split s Hs) as HP.
  assert (0 < 2 ^ (s - 1)) as Hh by (apply Z.pow_pos_nonneg; lia).
  pose proof (Z.div_mod n (2 ^ s) ltac:(lia)) as Hdm.
  pose proof (Z.mod_pos_bound n (2 ^ s) ltac:(lia)) as Hr.
  destruct (Z.ltb_spec (n mod 2 ^ s) (2 ^ (s - 1)));
    [|destruct (Z.ltb_spec (2 ^ (s - 1)) (n mod 2 ^ s)); [|destruct (Z.even _)]]; nia.
Qed.

Lemma rhe_mono a b s : 0 < s -> 0 <= a <= b ->
  round_half_even a s <= round_half_even b s.
Proof.
  intros Hs Hab.
  assert (0 < 2 ^ s) as HP by (apply Z.pow_pos_nonneg; lia).
  assert (a / 2 ^ s <= b / 2 ^ s) as Hq by (apply Z.div_le_mono; lia).
  destruct (Z.eq_dec (a / 2 ^ s) (b / 2 ^ s)) as [Heq|Hne].
  - assert (a mod 2 ^ s <= b mod 2 ^ s) as Hr.
    { pose proof (Z.div_mod a (2 ^ s) ltac:(lia)).
      pose proof (Z.div_mod b (2 ^ s) ltac:(lia)). nia. }
    unfold round_half_even. rewrite Heq.
    repeat match goal with
           | |- context [?x <? ?y] => destruct (Z.ltb_spec x y)
           | |- context [Z.even ?x] => destruct (Z.even x)
           end; lia.
  - pose proof (rhe_bounds a s Hs ltac:(lia)). pose proof (rhe_bounds b s Hs ltac:(lia)). lia.
Qed.

Lemma excess_spec n : 0 < excess n -> 2 ^ (52 + excess n) <= n < 2 ^ (53 + excess n).
Proof.
  unfold excess. intros Hs.
  assert (0 < n) as Hn.
  { destruct (Z.lt_trichotomy n 0) as [H|[H|H]]; [| |done].
    - rewrite Z.log2_nonpos in Hs by lia. lia.
    - subst. simpl in Hs. lia. }
  pose proof (Z.log2_spec n Hn) as Hl.
  replace (52 + (Z.log2 n - 52)) with (Z.log2 n) by lia.
  replace (53 + (Z.log2 n - 52)) with (Z.succ (Z.log2 n)) by lia. done.
Qed.

Lemma excess_small n : 0 <= n -> excess n <= 0 -> n < 2 ^ 53.
Proof.
  unfold excess. intros Hn Hs.
  destruct (Z.eq_dec n 0) as [->|]; [done|].
  pose proof (Z.log2_spec n ltac:(lia)) as [_ Hl].
  eapply Z.lt_le_trans; [exact Hl|]. apply Z.pow_le_mono_r; lia.
Qed.

Lemma round53_pos_range n : 0 < excess n ->
  2 ^ (52 + excess n) <= round53_pos n <= 2 ^ (53 + excess n).
Proof.
  intros Hs. pose proof (excess_spec n Hs) as [Hlo Hhi].
  unfold round53_pos. destruct (Z.leb_spec (excess n) 0); [lia|].
  assert (0 < 2 ^ excess n) as HP by (apply Z.pow_pos_nonneg; lia).
  rewrite !Z.pow_add_r in * by lia.
  assert (0 <= n) as Hn by lia.
  pose proof (rhe_bounds n (excess n) Hs Hn) as [Hb1 Hb2].
  assert (2 ^ 52 <= n / 2 ^ excess n) by (apply Z.div_le_lower_bound; lia).
  assert (n / 2 ^ excess n < 2 ^ 53) by (apply Z.div_lt_upper_bound; lia).
  nia.
Qed.

Lemma round53_pos_mono a b : 0 <= a <= b -> round53_pos a <= round53_pos b.
Proof.
  intros Hab.
  assert (excess a <= excess b) as Hs.
  { unfold excess. pose proof (Z.log2_le_mono a b ltac:(lia)). lia. }
  destruct (Z.leb_spec (excess b) 0) as [Hb|Hb].
  - unfold round53_pos.
    destruct (Z.leb_spec (excess a) 0); destruct (Z.leb_spec (excess b) 0); lia.
  - pose proof (round53_pos_range b Hb) as [Hblo _].
    destruct (Z.leb_spec (excess a) 0) as [Ha|Ha].
    + pose proof (excess_small a ltac:(lia) Ha).
      unfold round53_pos at 1. destruct (Z.leb_spec (excess a) 0); [|lia].
      assert (2 ^ 53 <= 2 ^ (52 + excess b)) by (apply Z.pow_le_mono_r; lia). lia.
    + destruct (Z.eq_dec (excess a) (excess b)) as [Heq|Hne].
      * unfold round53_pos. rewrite Heq.
        destruct (Z.leb_spec (excess b) 0); [lia|].
        apply Z.mul_le_mono_nonneg_r; [apply Z.pow_nonneg; lia|].
        apply rhe_mono; lia.
      * pose proof (round53_pos_range a Ha) as [_ Hahi].
        assert (2 ^ (53 + excess a) <= 2 ^ (52 + excess b)) by (apply Z.pow_le_mono_r; lia).
        lia.
Qed.

Lemma round53_pos_upper n : 0 <= n -> 2 ^ 53 * round53_pos n <= (2 ^ 53 + 1) * n.
Proof.
  intros Hn. unfold round53_pos.
  destruct (Z.leb_spec (excess n) 0) as [Hs|Hs]; [lia|].
  pose proof (rhe_error n (excess n) Hs Hn) as He.
  pose proof (excess_spec n Hs) as [Hlo _].
  replace (52 + excess n) with (53 + (excess n - 1)) in Hlo by lia.
  rewrite Z.pow_add_r in Hlo by lia. lia.
Qed.

Lemma round53_nonneg n : 0 <= n -> round53 n = round53_pos n.
Proof.
  intros Hn. unfold round53. rewrite Z.abs_eq by done.
  destruct (Z.eq_dec n 0) as [->|]; [done|].
  rewrite Z.sgn_pos by lia. lia.
Qed.

Lemma round53_pos_small n : 0 <= n < 2 ^ 53 -> round53_pos n = n.
Proof.
  intros [Hn Hlt]. unfold round53_pos.
  destruct (Z.leb_spec (excess n) 0) as [|Hs]; [done|].
  pose proof (excess_spec n Hs) as [Hlo _].
  assert (2 ^ 53 <= 2 ^ (52 + excess n)) by (apply Z.pow_le_mono_r; lia). lia.
Qed.


(** ** The index of a percentage *)

Lemma number_unfold total perc :
  number total perc
  = round53 (round53 (round53 total * 5764607523034235) * round53 (100 - perc)) / 2 ^ 59.
Proof. reflexivity. Qed.

Lemma number_100 total : number total 100 = 0.
Proof. rewrite number_unfold. replace (100 - 100) with 0 by lia.
  change (round53 0) with 0. rewrite Z.mul_0_r. reflexivity. Qed.

Lemma round53_pos_nonneg n : 0 <= n -> 0 <= round53_pos n.
Proof. intros Hn. change 0 with (round53_pos 0) at 1. apply round53_pos_mono. lia. Qed.

Lemma number_mono total p1 p2 :
  0 <= total -> p2 <= p1 <= 100 -> number total p1 <= number total p2.
Proof.
  intros Ht Hp. rewrite !number_unfold.
  apply Z.div_le_mono; [done|].
  rewrite !(round53_nonneg total), !(round53_nonneg (100 - _)) by lia.
  pose proof (round53_pos_nonneg total Ht) as H1.
  rewrite (round53_nonneg (_ * 5764607523034235)) by lia.
  pose proof (round53_pos_nonneg (round53_pos total * 5764607523034235) ltac:(lia)) as H2.
  pose proof (round53_pos_nonneg (100 - p1) ltac:(lia)) as H3.
  pose proof (round53_pos_mono (100 - p1) (100 - p2) ltac:(lia)) as H4.
  rewrite !round53_nonneg by nia.
  apply round53_pos_mono. nia.
Qed.

Lemma number_nonneg total perc : 0 <= total -> perc <= 100 -> 0 <= number total perc.
Proof.
  intros Ht Hp. rewrite <- (number_100 total). apply number_mono; lia.
Qed.

Lemma number_10_lt total : 0 < total -> number total 10 < total.
Proof.
  intros Ht. rewrite number_unfold.
  change (100 - 10) with 90. change (round53 90) with 90.
  rewrite (round53_nonneg total) by lia.
  pose proof (round53_pos_nonneg total ltac:(lia)) as H1.
  pose proof (round53_pos_upper total ltac:(lia)) as U1.
  rewrite (round53_nonneg (_ * 5764607523034235)) by lia.
  set (r1 := round53_pos total) in *.
  pose proof (round53_pos_nonneg (r1 * 5764607523034235) ltac:(lia)) as H2.
  pose proof (round53_pos_upper (r1 * 5764607523034235) ltac:(lia)) as U2.
  set (r2 := round53_pos (r1 * 5764607523034235)) in *.
  rewrite (round53_nonneg (r2 * 90)) by lia.
  pose proof (round53_pos_upper (r2 * 90) ltac:(lia)) as U3.
  set (r3 := round53_pos (r2 * 90)) in *.
  apply Z.div_lt_upper_bound; [done|].
  change (2 ^ 53) with 9007199254740992 in *.
  change (2 ^ 59) with 576460752303423488. lia.
Qed.

Lemma number_in_range total perc :
  0 < total -> 10 <= perc <= 100 -> 0 <= number total perc <= total - 1.
Proof.
  intros Ht Hp. split; [apply number_nonneg; lia|].
  pose proof (number_mono total perc 10 ltac:(lia) ltac:(lia)).
  pose proof (number_10_lt total Ht). lia.
Qed.


(** The model of the floats agrees with the Standard Library's IEEE-754
    operations on the lengths 1 to 2000 and on lengths beyond [2^53]. *)
Lemma number_agrees_with_IEEE :
  forallb agrees_with_IEEE
    (map Z.of_nat (seq 1 2000)
       ++ [2 ^ 53 + 1; 2 ^ 60 + 12345; 2 ^ 62 + 2 ^ 9 + 1; 2 ^ 63 - 1])
  = true.
Proof. vm_compute. reflexivity. Qed.

(** The index is the floor of a binary64 product, not of the exact one:
    for 58 values the median row takes index 28, where exact arithmetic
    gives 29. *)
Lemma number_is_floating_point : number 58 50 = 28 /\ 58 * (100 - 50) / 100 = 29.
Proof. split; reflexivity. Qed.

Lemma getitem_in_range {A} (l : list A) (i : Z) (d : A) :
  0 <= i < Z.of_nat (length l) -> getitem l i = Ok (nth (Z.to_nat i) l d).
Proof.
  intros Hi. unfold getitem.
  destruct (Z.ltb_spec i 0); [lia|].
  destruct (Z.leb_spec 0 i); [|lia].
  destruct (Z.ltb_spec i (Z.of_nat (length l))); [|lia]. simpl.
  destruct (l !! Z.to_nat i) as [a|] eqn:Hl.
  - f_equal. symmetry. apply nth_lookup_Some with (d := d) in Hl. exact Hl.
  - apply lookup_ge_None in Hl. lia.
Qed.

Lemma clamp_in_range lo hi i : lo <= i <= hi -> clamp lo hi i = i.
Proof. unfold clamp. lia. Qed.

Lemma percentile_rows_of_in_range (rankings : list Q) (percs : list Z) :
  rankings <> [] ->
  Forall (fun perc => 10 <= perc <= 100) percs ->
  percentile_rows_of rankings percs
  = Ok (map (fun P => (P, nth (Z.to_nat (clamp 0 (Z.of_nat (length rankings) - 1)
                                   (number (Z.of_nat (length rankings)) P)))
                              rankings 0%Q)) percs).
Proof.
  intros Hne Hall. induction Hall as [|perc percs Hp _ IH]; [reflexivity|].
  assert (0 < Z.of_nat (length rankings)) as Hlen by (destruct rankings; [done|simpl; lia]).
  pose proof (number_in_range _ perc Hlen Hp) as Hr.
  simpl. rewrite (getitem_in_range rankings _ 0%Q) by lia.
  rewrite IH, clamp_in_range by lia. reflexivity.
Qed.

Lemma percentage_list_range : Forall (fun perc => 10 <= perc <= 100) percentage_list.
Proof. unfold percentage_list. repeat constructor; lia. Qed.

Lemma descending_head_max (x : Q) (l : list Q) :
  descending (x :: l) -> forall v, In v (x :: l) -> (v <= x)%Q.
Proof.
  intros Hs. apply Sorted_StronglySorted in Hs.
  - inversion Hs as [|? ? _ Hall]; subst. intros v [<-|Hin]; [apply Qle_refl|].
    rewrite Forall_forall in Hall. apply Hall. apply list_elem_of_In. exact Hin.
  - intros a b c Hab Hbc. eapply Qle_trans; eauto.
Qed.

(** C1.  For a non-empty list of values in descending order the rows of
    the report are those of the percentile table: for each [P] of
    [100; 99; 95; 75; 50; 25; 10] the value at index
    [floor(total * 0.01 * (100 - P))], evaluated in binary64 as the program
    does.  Every such index lies within [0, total - 1], so that clamping
    it changes nothing; [P = 100] gives index 0 and the first row carries
    the largest value; the index does not decrease as [P] decreases. *)
Theorem percentile_report (rankings : list Q) :
  rankings <> [] -> descending rankings ->
  let total := Z.of_nat (length rankings) in
  percentile_rows rankings = Ok (percentile_table rankings)
  /\ (forall P, In P percentage_list -> 0 <= number total P <= total - 1)
  /\ number total 100 = 0
  /\ (exists top rows, percentile_rows rankings = Ok ((100, top) :: rows)
        /\ nth 0 rankings 0%Q = top /\ forall v, In v rankings -> (v <= top)%Q)
  /\ (forall P1 P2, In P1 percentage_list -> In P2 percentage_list ->
        P2 <= P1 -> number total P1 <= number total P2).
Proof.
  intros Hne Hdesc total.
  assert (0 < total) as Hlen by (subst total; destruct rankings; [done|simpl; lia]).
  pose proof percentage_list_range as Hrange. rewrite Forall_forall in Hrange.
  assert (percentile_rows rankings = Ok (percentile_table rankings)) as Hrows.
  { apply percentile_rows_of_in_range; [done|apply percentage_list_range]. }
  split; [exact Hrows|]. split.
  { intros P HP. apply number_in_range; [done|]. apply Hrange, list_elem_of_In, HP. }
  split; [apply number_100|]. split.
  - destruct rankings as [|x l]; [done|].
    exists x, (tl (percentile_table (x :: l))). split; [|split].
    + rewrite Hrows. unfold percentile_table, percentage_list. cbn [map tl].
      fold total. rewrite number_100, (clamp_in_range 0 (total - 1) 0) by lia.
      reflexivity.
    + reflexivity.
    + apply descending_head_max. exact Hdesc.
  - intros P1 P2 H1 H2 Hle. apply number_mono; [lia|].
    split; [done|]. apply (Hrange P1), list_elem_of_In, H1.
Qed.

Lemma percentile_report_witness :
  percentile_rows [100 # 1; 90 # 1; 80 # 1]%Q
  = Ok [(100, (100 # 1)%Q); (99, (100 # 1)%Q); (95, (100 # 1)%Q);
        (75, (100 # 1)%Q); (50, (90 # 1)%Q); (25, (80 # 1)%Q);
        (10, (80 # 1)%Q)].
Proof.
  refine (proj1 (percentile_report [100 # 1; 90 # 1; 80 # 1]%Q _ _)).
  - discriminate.
  - unfold descending. repeat constructor; unfold Qle; simpl; lia.
Defined.


(** ** The configuration store and the token *)

Section config.
Context (I : Interpolation).

Lemma cp_get_lookup cp section option_ (sectiondict : gmap string string) v :
  _sections cp !! section = Some sectiondict ->
  (sectiondict ∪ _defaults cp) !! optionxform I option_ = Some v ->
  cp_get I cp section option_
  = match before_get I (sectiondict ∪ _defaults cp) v with
    | Some v' => Ok v' | None => Raise InterpolationError end.
Proof. intros Hs Hl. unfold cp_get. rewrite Hs, Hl. reflexivity. Qed.

Lemma absent_inv cp section option_ :
  absent I cp section option_ ->
  match _sections cp !! section with
  | Some sectiondict => (sectiondict ∪ _defaults cp) !! optionxform I option_ = None
  | None => section = default_section -> _defaults cp !! optionxform I option_ = None
  end.
Proof.
  unfold absent, cp_get. destruct (_sections cp !! section) as [sd|].
  - destruct (_ !! optionxform I option_) as [v|]; [|done].
    destruct (before_get I _ v); intros [?|?]; discriminate.
  - intros H ->. simpl in H. rewrite (left_id_L ∅ (∪)) in H.
    destruct (_ !! optionxform I option_) as [v|]; [|done].
    destruct (before_get I _ v); destruct H; discriminate.
Qed.

(** After the fallback branch of [config_get] the entry reads back. *)
Lemma cp_set_then_get cp section option_ F :
  absent I cp section option_ ->
  F <> EmptyString -> before_set I F = true ->
  (forall visible, before_get I visible F = Some F) ->
  exists cp2,
    cp_set I (if negb (in_sections cp section)
              then cp_setitem_empty cp section else cp) section option_ F = Ok cp2
    /\ cp_get I cp2 section option_ = Ok F.
Proof.
  intros Habs HF Hset Hget. apply absent_inv in Habs.
  unfold cp_set. rewrite Hset.
  assert (String.eqb F EmptyString = false) as -> by (apply String.eqb_neq; done).
  cbn [negb andb]. unfold in_sections.
  destruct (_sections cp !! section) as [sd|] eqn:Hsec.
  - rewrite bool_decide_eq_true_2 by eauto. cbn [negb].
    destruct (String.eqb section EmptyString || String.eqb section default_section) eqn:Hd.
    + eexists; split; [reflexivity|].
      erewrite cp_get_lookup; [| exact Hsec |]; cbn [_defaults _sections].
      * rewrite Hget. reflexivity.
      * apply lookup_union_None in Habs as [Hsd _].
        rewrite lookup_union_r by done. apply lookup_insert_eq.
    + rewrite Hsec. eexists; split; [reflexivity|].
      erewrite cp_get_lookup; cbn [_defaults _sections].
      * rewrite Hget. reflexivity.
      * apply lookup_insert_eq.
      * apply lookup_union_Some_l, lookup_insert_eq.
  - rewrite bool_decide_eq_false_2 by (intros [? ?]; done). cbn [negb].
    unfold cp_setitem_empty.
    destruct (String.eqb section default_section) eqn:Hdef.
    + rewrite orb_true_r. eexists; split; [reflexivity|].
      unfold cp_get. cbn [_defaults _sections]. rewrite Hsec, Hdef.
      rewrite (left_id_L ∅ (∪)), lookup_insert_eq, Hget. reflexivity.
    + rewrite orb_false_r. cbn [_defaults _sections].
      destruct (String.eqb section EmptyString) eqn:Hemp.
      * eexists; split; [reflexivity|].
        erewrite cp_get_lookup; cbn [_defaults _sections].
        -- rewrite Hget. reflexivity.
        -- apply lookup_insert_eq.
        -- rewrite (left_id_L ∅ (∪)). apply lookup_insert_eq.
      * rewrite lookup_insert_eq. eexists; split; [reflexivity|].
        erewrite cp_get_lookup; cbn [_defaults _sections].
        -- rewrite Hget. reflexivity.
        -- apply lookup_insert_eq.
        -- apply lookup_union_Some_l, lookup_insert_eq.
Qed.

Lemma config_get_present section option_ fallback d v :
  cp_get I (config d) section option_ = Ok v ->
  config_get I section option_ fallback d = (Ok v, d).
Proof. intros H. unfold config_get. rewrite H. reflexivity. Qed.

Lemma config_get_no_fallback section option_ d :
  config_get I section option_ None d = (cp_get I (config d) section option_, d).
Proof.
  unfold config_get. destruct (cp_get I (config d) section option_) as [v|e]; [done|].
  destruct (missing_entry e); reflexivity.
Qed.

(** C6, amended.  Let [(section, option)] be absent from the store and let
    [F] be a non-empty fallback that the parser accepts and returns as it
    is.  Then [config_get(section, option, F)] returns [F] and writes the
    configuration, which now holds the entry, to the file, and
    [config_get(section, option)] on the store so obtained returns [F];
    without a fallback the call on the original store raises
    [NoSectionError] or [NoOptionError] and changes nothing. *)
Theorem config_get_fallback section option_ F d :
  absent I (config d) section option_ ->
  F <> EmptyString -> before_set I F = true ->
  (forall visible, before_get I visible F = Some F) ->
  (exists d',
      config_get I section option_ (Some F) d = (Ok F, d')
      /\ config_file d' = config d'
      /\ cp_get I (config_file d') section option_ = Ok F
      /\ config_get I section option_ None d' = (Ok F, d'))
  /\ (exists e, config_get I section option_ None d = (Raise e, d)
                /\ (e = NoSectionError \/ e = NoOptionError)).
Proof.
  intros Habs HF Hset Hget. split.
  - destruct (cp_set_then_get _ _ _ F Habs HF Hset Hget) as (cp2 & Hcp2 & Hread).
    exists (_save_config (with_config d cp2)).
    assert (config_get I section option_ (Some F) d
            = (Ok F, _save_config (with_config d cp2))) as Hcall.
    { unfold config_get.
      assert (String.eqb F EmptyString = false) as -> by (apply String.eqb_neq; done).
      destruct Habs as [-> | ->]; cbn [missing_entry]; rewrite Hcp2; reflexivity. }
    split; [exact Hcall|]. split; [reflexivity|]. split; [exact Hread|].
    rewrite config_get_no_fallback. cbn [_save_config with_config config]. rewrite Hread.
    reflexivity.
  - rewrite config_get_no_fallback.
    destruct Habs as [-> | ->]; eauto.
Qed.

(** The empty string as fallback is refused like a missing one. *)
Lemma config_get_empty_fallback section option_ d :
  config_get I section option_ (Some EmptyString) d = (cp_get I (config d) section option_, d).
Proof.
  unfold config_get. destruct (cp_get I (config d) section option_) as [v|e]; [done|].
  destruct (missing_entry e); reflexivity.
Qed.

End config.

Lemma config_get_fallback_witness :
  exists d',
    config_get plain_interpolation "fflogs" "range" (Some "14") empty_data = (Ok "14", d')
    /\ config_get plain_interpolation "fflogs" "range" None d' = (Ok "14", d').
Proof.
  destruct (config_get_fallback plain_interpolation "fflogs" "range" "14" empty_data)
    as [(d' & H1 & _ & _ & H2) _].
  - left. reflexivity.
  - discriminate.
  - reflexivity.
  - reflexivity.
  - exists d'. split; assumption.
Defined.

(** C6 as stated fails: the empty string, passed as fallback for an absent
    entry, is not returned; [NoSectionError] is raised.  A fallback that
    the parser refuses, such as ["50%"], makes the call raise
    [ValueError]. *)
Lemma config_get_fallback_empty_string :
  absent plain_interpolation (config empty_data) "fflogs" "range"
  /\ fst (config_get plain_interpolation "fflogs" "range" (Some EmptyString) empty_data)
     = Raise NoSectionError
  /\ fst (config_get plain_interpolation "fflogs" "range" (Some "50%") empty_data)
     = Raise ValueError
  /\ ~ (forall I section option_ F d,
          absent I (config d) section option_ ->
          fst (config_get I section option_ (Some F) d) = Ok F).
Proof.
  split; [left; reflexivity|]. split; [reflexivity|]. split; [reflexivity|].
  intros H.
  specialize (H plain_interpolation "fflogs" "range" EmptyString empty_data (or_introl eq_refl)).
  discriminate H.
Qed.

(** C9.  Reading the token never fails, whatever the store holds and
    whatever the library does with the stored value: the property returns
    the value [config.get] yields, or [None] when [config.get] raises, and
    it leaves the object as it was. *)
Theorem token_never_fails (E : Env) (self : FFLogs) :
  exists t : option string,
    token E self = Some (Ok t, self)
    /\ match cp_get (interpolation E) (config (data self)) "fflogs" "token" with
       | Ok value => t = Some value
       | Raise _ => t = None
       end.
Proof.
  unfold token. rewrite config_get_no_fallback.
  assert (with_data self (data self) = self) as -> by (destruct self; reflexivity).
  destruct (cp_get _ _ _ _) as [v|e]; eauto.
Qed.


(** ** The cache key *)

Lemma has_char_app c a b : has_char c (a +:+ b) = has_char c a || has_char c b.
Proof. induction a as [|x a IH]; simpl; [done|]. rewrite IH. apply orb_assoc. Qed.

Lemma pretty_N_char_not_sep x : Ascii.eqb (pretty_N_char x) "_" = false.
Proof. unfold pretty_N_char. repeat case_match; reflexivity. Qed.

Lemma pretty_N_go_sep_free (x : N) : forall s,
  has_char "_" s = false -> has_char "_" (pretty_N_go x s) = false.
Proof.
  induction (N.lt_wf_0 x) as [x _ IH]. intros s Hs.
  destruct (N.eq_dec x 0%N) as [->|Hx]; [exact Hs|].
  rewrite pretty_N_go_step by lia. apply IH.
  - apply N.div_lt; lia.
  - simpl. rewrite pretty_N_char_not_sep. exact Hs.
Qed.

Lemma pretty_N_sep_free (x : N) : has_char "_" (pretty x) = false.
Proof.
  unfold pretty, pretty_N. case_decide; [reflexivity|].
  apply pretty_N_go_sep_free. reflexivity.
Qed.

Lemma pretty_Z_sep_free (x : Z) : has_char "_" (pretty x) = false.
Proof.
  destruct x as [|p|p]; unfold pretty, pretty_Z; [reflexivity| |].
  - apply pretty_N_sep_free.
  - rewrite has_char_app. simpl. apply pretty_N_sep_free.
Qed.

(** A string is cut at the first separator in one way only. *)
Lemma split_at_sep (c : ascii) (a a' r r' : string) :
  has_char c a = false -> has_char c a' = false ->
  a +:+ String c r = a' +:+ String c r' -> a = a' /\ r = r'.
Proof.
  revert a'. induction a as [|x a IH]; intros [|x' a'] Ha Ha' Heq; simpl in *.
  - by inversion Heq.
  - inversion Heq; subst. rewrite Ascii.eqb_refl in Ha'. discriminate.
  - inversion Heq; subst. rewrite Ascii.eqb_refl in Ha. discriminate.
  - inversion Heq; subst. apply orb_false_elim in Ha as [_ Ha].
    apply orb_false_elim in Ha' as [_ Ha'].
    destruct (IH a' Ha Ha' ltac:(done)) as [-> ->]. done.
Qed.

Lemma digit_inj a b : digit a = digit b -> a mod 10 = b mod 10.
Proof.
  unfold digit. intros H.
  pose proof (Z.mod_pos_bound a 10 ltac:(lia)).
  pose proof (Z.mod_pos_bound b 10 ltac:(lia)).
  apply pretty_N_char_inj in H.
  - apply Z2N.inj in H; [exact H|tauto..].
  - change 10%N with (Z.to_N 10). apply Z2N.inj_lt; lia.
  - change 10%N with (Z.to_N 10). apply Z2N.inj_lt; lia.
Qed.

Lemma pad2_inj a b : 0 <= a < 100 -> 0 <= b < 100 -> pad2 a = pad2 b -> a = b.
Proof.
  intros Ha Hb H. unfold pad2 in H. inversion H as [[H1 H2]].
  apply digit_inj in H1, H2. Z.div_mod_to_equations. lia.
Qed.

Lemma strftime_Ymd_inj (d d' : datetime) :
  0 <= year d < 10000 -> 0 <= month d < 100 -> 0 <= day d < 100 ->
  0 <= year d' < 10000 -> 0 <= month d' < 100 -> 0 <= day d' < 100 ->
  strftime_Ymd d = strftime_Ymd d' ->
  year d = year d' /\ month d = month d' /\ day d = day d'.
Proof.
  intros Hy Hm Hd Hy' Hm' Hd' H. unfold strftime_Ymd, pad4, pad2 in H.
  simpl in H. inversion H as [[Y1 Y2 Y3 Y4 M1 M2 D1 D2]].
  apply digit_inj in Y1, Y2, Y3, Y4, M1, M2, D1, D2.
  Z.div_mod_to_equations. lia.
Qed.

Lemma valid_datetime_ranges d :
  valid_datetime d ->
  0 <= year d < 10000 /\ 0 <= month d < 100 /\ 0 <= day d < 100.
Proof.
  unfold valid_datetime, MINYEAR, MAXYEAR, days_in_month.
  intros (Hy & Hm & Hd & _). repeat case_match; lia.
Qed.

(** C8.  The cache key is injective: two keys built from integer
    identifiers and valid dates are equal only if boss, difficulty and
    job are equal and the dates fall on the same day. *)
Theorem cache_name_injective (boss difficulty job boss' difficulty' job' : Z)
    (date date' : datetime) :
  valid_datetime date -> valid_datetime date' ->
  cache_name boss difficulty job date = cache_name boss' difficulty' job' date' ->
  boss = boss' /\ difficulty = difficulty' /\ job = job'
  /\ year date = year date' /\ month date = month date' /\ day date = day date'.
Proof.
  intros Hv Hv' H. unfold cache_name in H.
  apply valid_datetime_ranges in Hv as (? & ? & ?), Hv' as (? & ? & ?).
  change ("_" +:+ ?s) with (String "_" s) in H.
  apply split_at_sep in H as [Hb H]; [|apply pretty_Z_sep_free..].
  apply split_at_sep in H as [Hd H]; [|apply pretty_Z_sep_free..].
  apply split_at_sep in H as [Hj H]; [|apply pretty_Z_sep_free..].
  apply (inj pretty) in Hb, Hd, Hj.
  apply strftime_Ymd_inj in H; [|done..]. tauto.
Qed.


(** ** The page loop *)

Section fetch.
Context (E : Env).

Lemma token_run self : token E self = Some (Ok (current_token E self), self).
Proof.
  unfold token, current_token. rewrite config_get_no_fallback.
  assert (with_data self (data self) = self) as -> by (destruct self; reflexivity).
  destruct (cp_get _ _ _ _); reflexivity.
Qed.

Lemma log_requests_app self a b :
  log_requests (log_requests self a) b = log_requests self (a ++ b).
Proof. unfold log_requests. simpl. rewrite app_assoc. reflexivity. Qed.

Lemma log_requests_nil self : log_requests self [] = self.
Proof. destruct self. unfold log_requests. simpl. rewrite app_nil_r. reflexivity. Qed.

Section one_day.
Context (boss difficulty job start_timestamp end_timestamp : Z).

Local Abbreviation url self :=
  (url_of E boss difficulty job start_timestamp end_timestamp self).

Lemma fetch_pages_step fuel page acc self :
  fetch_pages E (S fuel) boss difficulty job start_timestamp end_timestamp
              page acc self
  = match page_outcome_of (service E (url self page)) with
    | failed e => Some (Raise e, log_requests self [url self page])
    | last_page rs => Some (Ok (acc ++ rs), log_requests self [url self page])
    | more_pages rs =>
        fetch_pages E fuel boss difficulty job start_timestamp end_timestamp
                    (page + 1) (acc ++ rs) (log_requests self [url self page])
    end.
Proof.
  cbn [fetch_pages]. unfold bind at 1. rewrite token_run.
  unfold bind at 1. unfold _http, url_of, page_outcome_of.
  destruct (service E _) as [status b| |e];
    [|reflexivity|destruct (call_failed e); reflexivity].
  destruct (status =? 401); [reflexivity|].
  destruct (status =? 200); cbn [negb]; [|reflexivity].
  destruct b as [[[] rs| | |]| | |e]; try reflexivity.
  destruct (call_failed e); reflexivity.
Qed.

(** While the pages say that more follow, the loop goes on. *)
Lemma fetch_pages_more (pages : list (list ranking)) :
  forall fuel page acc self,
    (forall (i : nat) rs, pages !! i = Some rs ->
       service E (url self (page + Z.of_nat i)) = page_response true rs) ->
    fetch_pages E (length pages + fuel) boss difficulty job start_timestamp
                end_timestamp page acc self
    = fetch_pages E fuel boss difficulty job start_timestamp end_timestamp
                  (page + Z.of_nat (length pages)) (acc ++ concat pages)
                  (log_requests self
                     (map (url self) (pages_from page (length pages)))).
Proof.
  induction pages as [|rs pages IH]; intros fuel page acc self Hsvc.
  - simpl. rewrite Z.add_0_r, app_nil_r, log_requests_nil. reflexivity.
  - cbn [length Nat.add]. rewrite fetch_pages_step.
    pose proof (Hsvc 0%nat rs eq_refl) as H0. rewrite Z.add_0_r in H0.
    rewrite H0. change (page_outcome_of (page_response true rs)) with (more_pages rs).
    cbn iota. rewrite IH.
    + rewrite log_requests_app. cbn [pages_from map concat app].
      rewrite <- app_assoc. f_equal. lia.
    + intros i rs' Hi. specialize (Hsvc (S i) rs' Hi).
      replace (page + 1 + Z.of_nat i) with (page + Z.of_nat (S i)) by lia.
      exact Hsvc.
Qed.

(** Whatever the loop does, it only adds requests to the log. *)
Lemma fetch_pages_frame fuel : forall page acc self r self',
  fetch_pages E fuel boss difficulty job start_timestamp end_timestamp
              page acc self = Some (r, self') ->
  exists urls, self' = log_requests self urls.
Proof.
  induction fuel as [|fuel IH]; intros page acc self r self' H; [discriminate|].
  rewrite fetch_pages_step in H.
  destruct (page_outcome_of _) as [rs|rs|e].
  - apply IH in H as [urls ->]. rewrite log_requests_app. eauto.
  - inversion H; eauto.
  - inversion H; eauto.
Qed.
End one_day.
End fetch.


(** ** One day: cache and fetch *)

Section one_day_ranking.
Context (E : Env) (boss difficulty job : Z) (date : datetime).

Lemma one_day_cached fuel self rs :
  files (data self) !! cache_file boss difficulty job date = Some rs ->
  _get_one_day_ranking E fuel boss difficulty job date self = Some (Ok rs, self).
Proof.
  intros H. unfold _get_one_day_ranking, exists_. fold (cache_file boss difficulty job date).
  rewrite bool_decide_eq_true_2 by eauto.
  unfold lift, load_pkl. fold (cache_file boss difficulty job date). rewrite H. reflexivity.
Qed.

Lemma one_day_uncached fuel self end_date :
  files (data self) !! cache_file boss difficulty job date = None ->
  add_one_day date = Ok end_date ->
  _get_one_day_ranking E fuel boss difficulty job date self
  = match fetch_pages E fuel boss difficulty job (timestamp E date * 1000)
                      (timestamp E end_date * 1000) 1 [] self with
    | None => None
    | Some (Raise e, self1) => Some (Raise e, self1)
    | Some (Ok rankings, self1) =>
        if datetime_lt end_date (now E (clock_reads self1))
        then Some (Ok rankings,
                   with_data (tick self1)
                     (save_pkl (data self1) rankings
                               (cache_name boss difficulty job date)))
        else Some (Ok rankings, tick self1)
    end.
Proof.
  intros Hc Hd. unfold _get_one_day_ranking, exists_.
  fold (cache_file boss difficulty job date).
  rewrite bool_decide_eq_false_2 by (rewrite Hc; intros [? ?]; discriminate).
  rewrite Hd. unfold bind at 1. unfold lift at 1. unfold bind at 1.
  destruct (fetch_pages _ _ _ _ _ _ _ _ _ _) as [[[rs|e] self1]|]; try reflexivity.
  unfold bind, datetime_now. fold (tick self1).
  destruct (datetime_lt _ _); reflexivity.
Qed.

Lemma one_day_overflow fuel self e :
  files (data self) !! cache_file boss difficulty job date = None ->
  add_one_day date = Raise e ->
  _get_one_day_ranking E fuel boss difficulty job date self = Some (Raise e, self).
Proof.
  intros Hc Hd. unfold _get_one_day_ranking, exists_.
  fold (cache_file boss difficulty job date).
  rewrite bool_decide_eq_false_2 by (rewrite Hc; intros [? ?]; discriminate).
  rewrite Hd. reflexivity.
Qed.

Lemma pages_from_snoc p n : pages_from p (S n) = pages_from p n ++ [p + Z.of_nat n].
Proof.
  revert p. induction n as [|n IH]; intros p.
  - cbn. rewrite Z.add_0_r. reflexivity.
  - change (pages_from p (S (S n))) with (p :: pages_from (p + 1) (S n)).
    rewrite IH. cbn [pages_from app]. do 3 f_equal. lia.
Qed.

(** The pages before the last one, then the response to the next request. *)
Lemma fetch_pages_upto fuel self end_date (pages : list (list ranking)) :
  (forall (i : nat) rs, pages !! i = Some rs ->
     service E (day_url E boss difficulty job date end_date self (1 + Z.of_nat i))
     = page_response true rs) ->
  (length pages < fuel)%nat ->
  let next := day_url E boss difficulty job date end_date self
                      (1 + Z.of_nat (length pages)) in
  let self1 := log_requests self
                 (map (day_url E boss difficulty job date end_date self)
                      (pages_from 1 (S (length pages)))) in
  fetch_pages E fuel boss difficulty job (timestamp E date * 1000)
              (timestamp E end_date * 1000) 1 [] self
  = match page_outcome_of (service E next) with
    | failed e => Some (Raise e, self1)
    | last_page rs => Some (Ok (concat pages ++ rs), self1)
    | more_pages rs =>
        fetch_pages E (fuel - S (length pages)) boss difficulty job
                    (timestamp E date * 1000) (timestamp E end_date * 1000)
                    (1 + Z.of_nat (length pages) + 1) (concat pages ++ rs) self1
    end.
Proof.
  intros Hsvc Hfuel next self1.
  replace fuel with (length pages + S (fuel - S (length pages)))%nat at 1 by lia.
  rewrite fetch_pages_more by exact Hsvc.
  rewrite fetch_pages_step, log_requests_app.
  change (url_of E boss difficulty job (timestamp E date * 1000)
            (timestamp E end_date * 1000) (log_requests self ?l) ?p)
    with (day_url E boss difficulty job date end_date self p).
  fold next.
  change (url_of E boss difficulty job (timestamp E date * 1000)
            (timestamp E end_date * 1000) self)
    with (day_url E boss difficulty job date end_date self).
  assert (map (day_url E boss difficulty job date end_date self)
              (pages_from 1 (length pages)) ++ [next]
          = map (day_url E boss difficulty job date end_date self)
                (pages_from 1 (S (length pages)))) as ->.
  { rewrite pages_from_snoc, map_app. reflexivity. }
  fold self1. cbn [app]. reflexivity.
Qed.
End one_day_ranking.


(** A JSON value that is true in a boolean context but has not the two keys
    makes the subscription raise, past [_http] and its [except] clause. *)
Lemma page_outcome_misshapen r e :
  misshapen r e -> page_outcome_of r = failed e.
Proof. intros [[-> ->] | [-> ->]]; reflexivity. Qed.

Lemma page_outcome_unauthorized r :
  unauthorized r -> page_outcome_of r = failed AuthException.
Proof. intros [b ->]. reflexivity. Qed.

Lemma page_outcome_bad_response r :
  bad_response r -> page_outcome_of r = failed DataException_bad_response.
Proof.
  intros [-> | [(status & b & -> & H200 & H401) | [-> | [-> | [-> | He]]]]];
    try reflexivity.
  - unfold page_outcome_of.
    destruct (Z.eqb_spec status 401); [done|].
    destruct (Z.eqb_spec status 200); [done|]. reflexivity.
  - destruct He as (e & [-> | ->] & He); cbn; rewrite He; reflexivity.
Qed.

Lemma page_outcome_escapes r e :
  escapes r e -> page_outcome_of r = failed e.
Proof. intros [[-> | ->] He]; cbn; rewrite He; reflexivity. Qed.

(** A response is a page, or one of the four kinds of failure. *)
Lemma response_cases r :
  (exists more rs, r = page_response more rs)
  \/ unauthorized r \/ bad_response r
  \/ (exists e, misshapen r e) \/ (exists e, escapes r e).
Proof.
  destruct r as [status b| |e].
  - destruct (Z.eq_dec status 401) as [->|H401].
    { right; left. exists b. reflexivity. }
    destruct (Z.eq_dec status 200) as [->|H200].
    2:{ right; right; left. right; left. exists status, b. done. }
    destruct b as [[more rs| | |]| | |e].
    + left. exists more, rs. reflexivity.
    + right; right; left. do 4 right. left. reflexivity.
    + do 3 right. left. exists KeyError. left. done.
    + do 3 right. left. exists TypeError. right. done.
    + right; right; left. do 3 right. left. reflexivity.
    + right; right; left. do 2 right. left. reflexivity.
    + destruct (call_failed e) eqn:He.
      * right; right; left. do 5 right. exists e. split; [right; reflexivity|done].
      * do 4 right. exists e. split; [right; reflexivity|done].
  - right; right; left. left. reflexivity.
  - destruct (call_failed e) eqn:He.
    + right; right; left. do 5 right. exists e. split; [left; reflexivity|done].
    + do 4 right. exists e. split; [left; reflexivity|done].
Qed.

Section outcome.
Context (E : Env) (boss difficulty job : Z) (date : datetime).

Local Abbreviation key := (cache_file boss difficulty job date).
Local Abbreviation run fuel := (_get_one_day_ranking E fuel boss difficulty job date).

(** Every outcome of a call: what it returns and what it leaves behind. *)
Lemma one_day_outcome fuel self r self' :
  run fuel self = Some (r, self') ->
  (exists rs, files (data self) !! key = Some rs /\ r = Ok rs /\ self' = self)
  \/ (files (data self) !! key = None /\ exists e, r = Raise e /\ data self' = data self)
  \/ (files (data self) !! key = None /\
      exists end_date rs urls,
        add_one_day date = Ok end_date /\ r = Ok rs /\
        requests self' = requests self ++ urls /\
        data self' = if datetime_lt end_date (now E (clock_reads self))
                     then save_pkl (data self) rs (cache_name boss difficulty job date)
                     else data self).
Proof.
  intros H. destruct (files (data self) !! key) as [rs|] eqn:Hc.
  - left. rewrite (one_day_cached _ _ _ _ _ _ _ rs Hc) in H. inversion H. eauto.
  - right. destruct (add_one_day date) as [end_date|e] eqn:Hd.
    + rewrite (one_day_uncached _ _ _ _ _ _ _ _ Hc Hd) in H.
      destruct (fetch_pages _ _ _ _ _ _ _ _ _ _) as [[[rs|e] self1]|] eqn:Hf; [| |done].
      * right. split; [done|]. apply fetch_pages_frame in Hf as [urls ->].
        exists end_date, rs, urls. cbn [log_requests clock_reads data] in H.
        destruct (datetime_lt _ _); inversion H; subst; eauto.
      * left. split; [done|]. apply fetch_pages_frame in Hf as [urls ->].
        inversion H; subst. eauto.
    + left. split; [done|].
      rewrite (one_day_overflow _ _ _ _ _ _ _ _ Hc Hd) in H. inversion H; subst. eauto.
Qed.
End outcome.

(** An entry of the cache outlives every later call. *)
Lemma cached_entry_stays self self2 name rs :
  fetched_from self self2 ->
  files (data self) !! name = Some rs -> files (data self2) !! name = Some rs.
Proof.
  induction 1 as [|self self1 self2 E fuel b d j date r Hrun _ IH]; [done|].
  intros Hc. apply IH.
  apply one_day_outcome in Hrun
    as [(rs' & _ & _ & ->) | [(_ & e & _ & ->) | (Hn & end_date & rs' & urls & _ & _ & _ & ->)]];
    try done.
  destruct (datetime_lt _ _); [|done].
  unfold save_pkl. cbn [files]. fold (cache_file b d j date).
  rewrite lookup_insert_ne; [done|]. intros <-. congruence.
Qed.

Section single_day.
Context (E : Env) (boss difficulty job : Z) (date : datetime).

(** C2.  A single-day fetch that finds no cached records and returns [rs]
    stores [rs] under the day's key exactly when the day's end lies
    strictly before the clock reading taken once the pages are fetched,
    and leaves the files alone otherwise.  Once stored, every later
    call for that key, in whatever surroundings and after whatever other
    single-day fetches, returns [rs] and leaves the object, its request
    log included, unchanged. *)
Theorem cache_freshness fuel self rs self' :
  files (data self) !! cache_file boss difficulty job date = None ->
  _get_one_day_ranking E fuel boss difficulty job date self = Some (Ok rs, self') ->
  exists end_date,
    add_one_day date = Ok end_date
    /\ files (data self')
       = (if datetime_lt end_date (now E (clock_reads self))
          then <[cache_file boss difficulty job date := rs]> (files (data self)) else files (data self))
    /\ (datetime_lt end_date (now E (clock_reads self)) = true ->
        forall self2, fetched_from self' self2 ->
        forall E' fuel',
          _get_one_day_ranking E' fuel' boss difficulty job date self2
          = Some (Ok rs, self2)).
Proof.
  intros Hc Hrun.
  apply one_day_outcome in Hrun
    as [(rs' & Hc' & _) | [(_ & e & He & _) | (_ & end_date & rs' & urls & Hd & Hr & _ & Hdata)]];
    [congruence|discriminate|].
  inversion Hr; subst rs'. exists end_date. split; [done|]. split.
  - rewrite Hdata. destruct (datetime_lt _ _); reflexivity.
  - intros Hlt self2 Hlater E' fuel'. apply one_day_cached.
    apply (cached_entry_stays self'); [done|].
    rewrite Hdata, Hlt. apply lookup_insert_eq.
Qed.

(** C10.  A single-day fetch that raises leaves the plugin data, and so the
    file of the day's key, as they were before the call. *)
Theorem failed_fetch_writes_nothing fuel self e self' :
  _get_one_day_ranking E fuel boss difficulty job date self = Some (Raise e, self') ->
  data self' = data self
  /\ files (data self') !! cache_file boss difficulty job date
     = files (data self) !! cache_file boss difficulty job date.
Proof.
  intros Hrun.
  assert (data self' = data self) as Hd; [|by rewrite Hd].
  apply one_day_outcome in Hrun
    as [(rs' & _ & Hr & _) | [(_ & e' & _ & Hd) | (_ & ? & ? & ? & _ & Hr & _)]];
    [discriminate|done|discriminate].
Qed.

(** C3.  Let the first [length pages] requests of a single-day fetch be
    answered by pages that announce more pages, and let the next response
    be no page.  Then the call raises, and the caller receives the
    exception and none of the records of the earlier pages.  The exception
    is [AuthException] for status 401, and [DataException] for the
    failures that [_http] answers with [None] (a status other than 200,
    an exception that its [except] clause names) and for an empty JSON
    value.  The other failures do not end in [DataException]: for a JSON
    value of another shape the subscription raises [KeyError] or
    [TypeError], and an exception of the request that the clause does not
    name, such as a timeout, leaves the call as it is.  The last part says
    that these are all the failures. *)
Theorem page_failure fuel self end_date (pages : list (list ranking)) :
  files (data self) !! cache_file boss difficulty job date = None ->
  add_one_day date = Ok end_date ->
  (forall (i : nat) rs, pages !! i = Some rs ->
     service E (day_url E boss difficulty job date end_date self (1 + Z.of_nat i)) = page_response true rs) ->
  (length pages < fuel)%nat ->
  let r := service E (day_url E boss difficulty job date end_date self (1 + Z.of_nat (length pages))) in
  let self1 := log_requests self
                 (map (day_url E boss difficulty job date end_date self) (pages_from 1 (S (length pages)))) in
  (unauthorized r ->
   _get_one_day_ranking E fuel boss difficulty job date self
   = Some (Raise AuthException, self1))
  /\ (bad_response r ->
      _get_one_day_ranking E fuel boss difficulty job date self
      = Some (Raise DataException_bad_response, self1))
  /\ (forall e, misshapen r e \/ escapes r e ->
      _get_one_day_ranking E fuel boss difficulty job date self
      = Some (Raise e, self1))
  /\ ((forall more rs, r <> page_response more rs) ->
      unauthorized r \/ bad_response r
      \/ (exists e, misshapen r e) \/ (exists e, escapes r e)).
Proof.
  intros Hc Hd Hsvc Hfuel r self1.
  rewrite (one_day_uncached _ _ _ _ _ _ _ _ Hc Hd).
  rewrite (fetch_pages_upto _ _ _ _ _ _ _ _ pages Hsvc Hfuel). fold r self1.
  split; [|split; [|split]].
  - intros Hr. rewrite (page_outcome_unauthorized r Hr). reflexivity.
  - intros Hr. rewrite (page_outcome_bad_response r Hr). reflexivity.
  - intros e [Hr | Hr].
    + rewrite (page_outcome_misshapen r e Hr). reflexivity.
    + rewrite (page_outcome_escapes r e Hr). reflexivity.
  - intros Hpage. destruct (response_cases r) as [(more & rs & Hr) | H]; [|exact H].
    destruct (Hpage more rs Hr).
Qed.

(** C4.  If the service answers the requests for the pages
    [1 .. length pages] with pages announcing more pages and the request
    for the next page with a page announcing no more, a single-day fetch
    with enough fuel returns the records of all these pages in the order
    of their arrival, and has requested exactly the pages
    [1 .. length pages + 1], in this order. *)
Theorem pagination fuel self end_date (pages : list (list ranking))
    (last : list ranking) :
  files (data self) !! cache_file boss difficulty job date = None ->
  add_one_day date = Ok end_date ->
  (forall (i : nat) rs, pages !! i = Some rs ->
     service E (day_url E boss difficulty job date end_date self (1 + Z.of_nat i)) = page_response true rs) ->
  service E (day_url E boss difficulty job date end_date self (1 + Z.of_nat (length pages)))
  = page_response false last ->
  (length pages < fuel)%nat ->
  exists self',
    _get_one_day_ranking E fuel boss difficulty job date self = Some (Ok (concat pages ++ last), self')
    /\ requests self'
       = requests self ++ map (day_url E boss difficulty job date end_date self) (pages_from 1 (S (length pages))).
Proof.
  intros Hc Hd Hsvc Hlast Hfuel.
  rewrite (one_day_uncached _ _ _ _ _ _ _ _ Hc Hd).
  rewrite (fetch_pages_upto _ _ _ _ _ _ _ _ pages Hsvc Hfuel), Hlast.
  change (page_outcome_of (page_response false last)) with (last_page last).
  cbn iota. destruct (datetime_lt _ _); eexists; split; reflexivity.
Qed.
End single_day.


(** ** Sorting and the window *)

Section sorting.
Context {A : Type} (key : A -> Q).

Lemma Qltb_true a b : Qltb a b = true -> (a <= b)%Q.
Proof.
  unfold Qltb. intros H. apply negb_true_iff in H.
  destruct (Qlt_le_dec a b) as [Hlt|Hle]; [apply Qlt_le_weak, Hlt|].
  apply Qle_bool_iff in Hle. congruence.
Qed.

Lemma Qltb_false a b : Qltb a b = false -> (b <= a)%Q.
Proof. unfold Qltb. intros H. apply negb_false_iff in H. apply Qle_bool_iff, H. Qed.

Lemma insert_desc_perm x l : Permutation (insert_desc key x l) (x :: l).
Proof.
  induction l as [|y l IH]; cbn [insert_desc]; [done|].
  destruct (Qltb _ _); [|done].
  rewrite IH. apply perm_swap.
Qed.

Lemma sort_desc_perm l : Permutation (sort_desc key l) l.
Proof.
  induction l as [|x l IH]; [done|].
  cbn. rewrite insert_desc_perm. by constructor.
Qed.

Lemma insert_desc_sorted x l :
  Sorted (fun a b => (key b <= key a)%Q) l ->
  Sorted (fun a b => (key b <= key a)%Q) (insert_desc key x l).
Proof.
  induction 1 as [|y l Hs IH Hhd]; cbn [insert_desc]; [repeat constructor|].
  destruct (Qltb (key x) (key y)) eqn:Hxy.
  - constructor; [exact IH|].
    destruct Hhd as [|z l Hz]; cbn [insert_desc].
    + constructor. apply Qltb_true, Hxy.
    + destruct (Qltb (key x) (key z)); constructor; [exact Hz|apply Qltb_true, Hxy].
  - constructor; [by constructor|]. constructor. apply Qltb_false, Hxy.
Qed.

Lemma sort_desc_sorted l : Sorted (fun a b => (key b <= key a)%Q) (sort_desc key l).
Proof.
  induction l as [|x l IH]; [constructor|]. apply insert_desc_sorted, IH.
Qed.

Lemma sort_desc_descending l : descending (map key (sort_desc key l)).
Proof.
  unfold descending. pose proof (sort_desc_sorted l) as Hs.
  induction Hs as [|y l' Hs IH Hhd]; [constructor|].
  cbn [map]. constructor; [exact IH|].
  destruct Hhd; constructor. done.
Qed.

Lemma sort_desc_nil l : sort_desc key l = [] <-> l = [].
Proof.
  split; [|intros ->; reflexivity].
  intros H. pose proof (sort_desc_perm l) as Hp. rewrite H in Hp.
  by apply Permutation_nil in Hp.
Qed.
End sorting.

Section whole.
Context (E : Env) (fuel : nat) (boss difficulty job : Z).

Lemma has_day_before_eq d : has_day_before d -> sub_one_day d = Ok (day_before d).
Proof. intros [d' H]. unfold day_before. rewrite H. reflexivity. Qed.

Lemma each_day_merge n : forall date acc self,
  Forall has_day_before (window date n) ->
  each_day E fuel boss difficulty job n date acc self
  = (do merged <- merge_days E fuel boss difficulty job (window date n);
     ret (acc ++ merged)) self.
Proof.
  induction n as [|n IH]; intros date acc self Hw.
  - cbn. unfold bind, ret. rewrite app_nil_r. reflexivity.
  - cbn [window] in Hw. apply Forall_cons in Hw as [Hd Hw].
    cbn [each_day window merge_days]. unfold bind at 1 3 4.
    destruct (_get_one_day_ranking _ _ _ _ _ _ _) as [[[rs|e] self1]|]; try reflexivity.
    rewrite (has_day_before_eq _ Hd). unfold bind at 1, lift.
    rewrite IH by exact Hw. unfold bind, ret.
    destruct (merge_days _ _ _ _ _ _ _) as [[[more|e] self2]|]; try reflexivity.
    rewrite app_assoc. reflexivity.
Qed.

Lemma sort_and_extract_field dps_type field merged :
  metric_field dps_type = Some field ->
  sort_and_extract dps_type merged = numbers (map field (sort_desc field merged)).
Proof.
  unfold metric_field, sort_and_extract.
  repeat destruct (String.eqb dps_type _); intros [= <-]; reflexivity.
Qed.

Lemma is_empty_sort_and_extract dps_type merged :
  is_empty (sort_and_extract dps_type merged) = bool_decide (merged = []).
Proof.
  assert (forall f : ranking -> Q,
             is_empty (numbers (map f (sort_desc f merged))) = bool_decide (merged = []))
    as Hnum.
  { intros f. destruct merged as [|x l]; [reflexivity|].
    destruct (sort_desc f (x :: l)) eqn:Hs; [|reflexivity].
    apply sort_desc_nil in Hs. discriminate. }
  unfold sort_and_extract.
  repeat (destruct (String.eqb dps_type _); [apply Hnum|]).
  destruct merged; reflexivity.
Qed.

Lemma whole_ranking_merge dps_type anchor self :
  Forall has_day_before (window (midnight anchor) (Z.to_nat (range self))) ->
  _get_whole_ranking E fuel boss difficulty job dps_type anchor self
  = (do merged <- merge_days E fuel boss difficulty job
                    (window (midnight anchor) (Z.to_nat (range self)));
     if bool_decide (merged = []) then raise DataException_no_data
     else ret (sort_and_extract dps_type merged)) self.
Proof.
  intros Hw. unfold _get_whole_ranking. unfold bind at 1.
  rewrite each_day_merge by exact Hw. unfold bind, ret.
  destruct (merge_days _ _ _ _ _ _ _) as [[[merged|e] self1]|]; try reflexivity.
  cbn [app]. rewrite is_empty_sort_and_extract. reflexivity.
Qed.
End whole.


Section init.
Context (E : Env).

Lemma init_range d self0 :
  init E d = Ok self0 ->
  int E "14" = Ok 14 ->
  (absent (interpolation E) (config d) "fflogs" "range" -> range self0 = 14)
  /\ (forall value, cp_get (interpolation E) (config d) "fflogs" "range" = Ok value ->
        int E value = Ok (range self0)).
Proof.
  unfold init, config_get. intros Hinit H14. split.
  - intros Habs.
    assert (exists e, cp_get (interpolation E) (config d) "fflogs" "range" = Raise e
                      /\ missing_entry e = true) as (e & He & Hm)
      by (destruct Habs as [H|H]; rewrite H; eauto).
    rewrite He, Hm in Hinit. cbn [String.eqb Ascii.eqb Bool.eqb] in Hinit.
    destruct (cp_set _ _ _ _ _); [|discriminate].
    rewrite H14 in Hinit. inversion Hinit. reflexivity.
  - intros value Hv. rewrite Hv in Hinit.
    destruct (int E value); [|discriminate]. inversion Hinit. reflexivity.
Qed.

Lemma cp_set_fallback_ok cp section option_ F :
  before_set (interpolation E) F = true ->
  exists cp2,
    cp_set (interpolation E)
           (if negb (in_sections cp section)
            then cp_setitem_empty cp section else cp) section option_ F = Ok cp2.
Proof.
  intros Hset. unfold cp_set. rewrite Hset, andb_false_r.
  destruct (String.eqb section EmptyString || String.eqb section default_section) eqn:Hd; [eauto|].
  apply orb_false_elim in Hd as [_ Hd].
  unfold in_sections, cp_setitem_empty. rewrite Hd.
  destruct (_sections cp !! section) as [sd|] eqn:Hs.
  - rewrite bool_decide_eq_true_2 by eauto. cbn [negb]. rewrite Hs. eauto.
  - rewrite bool_decide_eq_false_2 by (intros [? ?]; done). cbn [negb _sections].
    rewrite lookup_insert_eq. eauto.
Qed.

Lemma init_default d :
  absent (interpolation E) (config d) "fflogs" "range" ->
  before_set (interpolation E) "14" = true ->
  int E "14" = Ok 14 ->
  exists d', init E d = Ok (mk_FFLogs 14 d' [] 0).
Proof.
  intros Habs Hset H14. unfold init, config_get.
  assert (exists e, cp_get (interpolation E) (config d) "fflogs" "range" = Raise e
                    /\ missing_entry e = true) as (e & He & Hm)
    by (destruct Habs as [H|H]; rewrite H; eauto).
  rewrite He, Hm. cbn [String.eqb Ascii.eqb Bool.eqb].
  destruct (cp_set_fallback_ok (config d) "fflogs" "range" "14" Hset) as [cp2 ->].
  rewrite H14. eauto.
Qed.
End init.

Section whole_window.
Context (E : Env) (fuel : nat) (boss difficulty job : Z).

Lemma days_yield_nothing_merge days self self' :
  days_yield_nothing E fuel boss difficulty job days self self' ->
  merge_days E fuel boss difficulty job days self = Some (Ok [], self').
Proof.
  induction 1 as [|d rest self self1 self2 Hd _ IH]; [reflexivity|].
  cbn [merge_days]. unfold bind at 1. rewrite Hd.
  unfold bind at 1. rewrite IH. reflexivity.
Qed.

Lemma window_length anchor n : length (window anchor n) = n.
Proof. revert anchor. induction n as [|n IH]; intros anchor; cbn; [done|]. by rewrite IH. Qed.

(** C5.  The window length is read from the configuration by [__init__]
    and is 14 when the entry is absent.  [_get_whole_ranking] visits the
    [range] days [anchor], [anchor - 1], ... in this order, merges their
    records, fails when there are none, and else returns the values of the
    field the metric selects, taken from the merged records sorted by
    that field; these values are in descending order and the sorting only
    permutes the records. *)
Theorem window_aggregation dps_type field anchor self :
  int E "14" = Ok 14 ->
  metric_field dps_type = Some field ->
  Forall has_day_before (window (midnight anchor) (Z.to_nat (range self))) ->
  let days := window (midnight anchor) (Z.to_nat (range self)) in
  (forall d self0, init E d = Ok self0 ->
     (absent (interpolation E) (config d) "fflogs" "range" -> range self0 = 14)
     /\ (forall value,
           cp_get (interpolation E) (config d) "fflogs" "range" = Ok value ->
           int E value = Ok (range self0)))
  /\ (forall d, absent (interpolation E) (config d) "fflogs" "range" ->
        before_set (interpolation E) "14" = true ->
        exists d', init E d = Ok (mk_FFLogs 14 d' [] 0))
  /\ length days = Z.to_nat (range self)
  /\ _get_whole_ranking E fuel boss difficulty job dps_type anchor self
     = as_numbers (aggregate E fuel boss difficulty job field days self)
  /\ (forall merged,
        descending (map field (sort_desc field merged))
        /\ Permutation (sort_desc field merged) merged).
Proof.
  intros H14 Hfield Hw days. split; [|split; [|split; [|split]]].
  - intros d self0 Hinit. apply init_range; done.
  - intros d Habs Hset. apply init_default; done.
  - apply window_length.
  - rewrite whole_ranking_merge by exact Hw. fold days.
    unfold aggregate, bind, ret, raise, as_numbers.
    destruct (merge_days _ _ _ _ _ _ _) as [[[merged|e] self1]|]; try reflexivity.
    destruct merged as [|x l]; [reflexivity|].
    rewrite bool_decide_eq_false_2 by discriminate.
    rewrite (sort_and_extract_field _ field) by exact Hfield. reflexivity.
  - intros merged. split; [apply sort_desc_descending|apply sort_desc_perm].
Qed.

(** C7.  If every day of the window yields zero records, then
    [_get_whole_ranking] raises [DataException] ("no data"), and the object
    it leaves behind is the one left by the last day of the window: the
    whole window has been processed. *)
Theorem empty_window dps_type anchor self self' :
  Forall has_day_before (window (midnight anchor) (Z.to_nat (range self))) ->
  days_yield_nothing E fuel boss difficulty job
    (window (midnight anchor) (Z.to_nat (range self))) self self' ->
  _get_whole_ranking E fuel boss difficulty job dps_type anchor self
  = Some (Raise DataException_no_data, self').
Proof.
  intros Hw Hdays. rewrite whole_ranking_merge by exact Hw.
  unfold bind. rewrite (days_yield_nothing_merge _ _ _ Hdays). reflexivity.
Qed.
End whole_window.


(** ** The properties on the sample surroundings *)

Lemma pagination_witness :
  exists self',
    _get_one_day_ranking three_pages 3 5 100 7 day_1 (fresh 2)
    = Some (Ok (ten_samples 100 ++ ten_samples 200 ++ ten_samples 300), self')
    /\ requests self' = [sample_url 1; sample_url 2; sample_url 3]
    /\ length (ten_samples 100 ++ ten_samples 200 ++ ten_samples 300) = 30%nat.
Proof.
  destruct (pagination three_pages 5 100 7 day_1 3 (fresh 2) end_of_day_1
              [ten_samples 100; ten_samples 200] (ten_samples 300))
    as (self' & Hrun & Hreq).
  - vm_compute. reflexivity.
  - vm_compute. reflexivity.
  - intros [|[|i]] rs H; simpl in H; inversion H; subst; vm_compute; reflexivity.
  - vm_compute. reflexivity.
  - simpl. lia.
  - exists self'. split; [exact Hrun|]. split; [exact Hreq|]. reflexivity.
Defined.

Lemma page_failure_witness :
  _get_one_day_ranking second_page_misshapen 2 5 100 7 day_1 (fresh 2)
  = Some (Raise KeyError, log_requests (fresh 2) [sample_url 1; sample_url 2]).
Proof.
  refine (proj1 (proj2 (proj2
            (page_failure second_page_misshapen 5 100 7 day_1 2 (fresh 2)
               end_of_day_1 [ten_samples 100] _ _ _ _))) KeyError _).
  - vm_compute. reflexivity.
  - vm_compute. reflexivity.
  - intros [|i] rs H; simpl in H; inversion H; subst; vm_compute; reflexivity.
  - simpl. lia.
  - left. left. split; [vm_compute; reflexivity|reflexivity].
Defined.

(** The same exception leaves [dps], whose [except] clauses name
    [DataException] and [AuthException]; so does a timeout. *)
Example misshapen_page_leaves_dps :
  (exists self',
     dps error_object sample_data 1 "titan" "bard" "rdps" (fresh 2)
     = Some (Raise KeyError, self'))
  /\ (exists self',
        dps out_of_time sample_data 1 "titan" "bard" "rdps" (fresh 2)
        = Some (Raise TimeoutError, self')).
Proof. split; eexists; vm_compute; reflexivity. Qed.

Lemma failed_fetch_writes_nothing_witness :
  _get_one_day_ranking second_page_401 2 5 100 7 day_1 (fresh 2)
  = Some (Raise AuthException, log_requests (fresh 2) [sample_url 1; sample_url 2])
  /\ files (data (log_requests (fresh 2) [sample_url 1; sample_url 2]))
       !! cache_file 5 100 7 day_1 = None.
Proof.
  assert (_get_one_day_ranking second_page_401 2 5 100 7 day_1 (fresh 2)
          = Some (Raise AuthException,
                  log_requests (fresh 2) [sample_url 1; sample_url 2])) as Hrun
    by (vm_compute; reflexivity).
  split; [exact Hrun|].
  rewrite (proj2 (failed_fetch_writes_nothing second_page_401 5 100 7 day_1 2
                    (fresh 2) AuthException _ Hrun)).
  vm_compute. reflexivity.
Defined.

Lemma cache_freshness_witness :
  files (data after_three_pages) !! cache_file 5 100 7 day_1
  = Some (ten_samples 100 ++ ten_samples 200 ++ ten_samples 300)
  /\ _get_one_day_ranking no_records 0 5 100 7 day_1 after_three_pages
     = Some (Ok (ten_samples 100 ++ ten_samples 200 ++ ten_samples 300),
             after_three_pages).
Proof.
  destruct (cache_freshness three_pages 5 100 7 day_1 3 (fresh 2)
              (ten_samples 100 ++ ten_samples 200 ++ ten_samples 300)
              after_three_pages)
    as (end_date & Hend & Hfiles & Hlater).
  - vm_compute. reflexivity.
  - vm_compute. reflexivity.
  - assert (end_date = end_of_day_1) as -> by (vm_compute in Hend; inversion Hend; reflexivity).
    split.
    + rewrite Hfiles. vm_compute. reflexivity.
    + apply Hlater; [vm_compute; reflexivity|constructor].
Defined.

Lemma cache_name_injective_witness :
  valid_datetime day_1 /\ valid_datetime noon_of_day_1
  /\ cache_name 5 100 7 day_1 = cache_name 5 100 7 noon_of_day_1
  /\ day day_1 = day noon_of_day_1.
Proof.
  assert (valid_datetime day_1) as H1
    by (unfold valid_datetime; vm_compute; intuition discriminate).
  assert (valid_datetime noon_of_day_1) as H2
    by (unfold valid_datetime; vm_compute; intuition discriminate).
  assert (cache_name 5 100 7 day_1 = cache_name 5 100 7 noon_of_day_1) as Heq
    by (vm_compute; reflexivity).
  split; [exact H1|]. split; [exact H2|]. split; [exact Heq|].
  apply (cache_name_injective 5 100 7 5 100 7 day_1 noon_of_day_1 H1 H2 Heq).
Defined.

(** Keys of different days differ. *)
Example cache_name_of_two_days :
  cache_name 5 100 7 day_1 = "5_100_7_20190630"%string
  /\ cache_name 5 100 7 day_2 = "5_100_7_20190629"%string.
Proof. split; vm_compute; reflexivity. Qed.

Lemma window_aggregation_witness :
  _get_whole_ranking two_days 1 5 100 7 "rdps" day_1 first_day_cached
  = as_numbers (aggregate two_days 1 5 100 7 total [day_1; day_2] first_day_cached).
Proof.
  refine (proj1 (proj2 (proj2 (proj2
            (window_aggregation two_days 1 5 100 7 "rdps" total
                                day_1 first_day_cached _ _ _))))).
  - vm_compute. reflexivity.
  - vm_compute. reflexivity.
  - repeat constructor; eexists; vm_compute; reflexivity.
Defined.

Lemma empty_window_witness :
  exists self',
    _get_whole_ranking no_records 1 5 100 7 "rdps" day_1 (fresh 2)
    = Some (Raise DataException_no_data, self')
    /\ length (requests self') = 2%nat.
Proof.
  eexists. split.
  - apply (empty_window no_records 1 5 100 7 "rdps" day_1 (fresh 2)).
    + repeat constructor; eexists; vm_compute; reflexivity.
    + eapply nothing_cons; [vm_compute; reflexivity|].
      eapply nothing_cons; [vm_compute; reflexivity|].
      apply nothing_nil.
  - vm_compute. reflexivity.
Defined.

Example specification_example :
  exists self',
    _get_whole_ranking two_days 1 5 100 7 "rdps" day_1 first_day_cached
    = Some (Ok (numbers [inject_Z 100; inject_Z 90; inject_Z 80]), self')
    /\ requests self'
       = [day_url two_days 5 100 7 day_2 day_1 first_day_cached 1]
    /\ percentile_rows [inject_Z 100; inject_Z 90; inject_Z 80]
       = Ok [(100, inject_Z 100); (99, inject_Z 100); (95, inject_Z 100);
             (75, inject_Z 100); (50, inject_Z 90); (25, inject_Z 80);
             (10, inject_Z 80)].
Proof. eexists. split; [vm_compute; reflexivity|]. split; vm_compute; reflexivity. Qed.

(** * Further properties *)

(** ** Requests *)

Section requests.
Context (E : Env).

Lemma zones_run self :
  zones E self
  = _http E (base_url +:+ "/zones?api_key=" +:+ str_token (current_token E self))
          self.
Proof. unfold zones, bind. rewrite token_run. reflexivity. Qed.

Lemma classes_run self :
  classes E self
  = _http E (base_url +:+ "/classes?api_key="
               +:+ str_token (current_token E self)) self.
Proof. unfold classes, bind. rewrite token_run. reflexivity. Qed.

(** X1.  [_http] sends exactly one request and leaves everything else of
    the object alone.  It raises in two cases only: [AuthException] for
    status 401, and an exception of the request that its [except] clause
    does not name, such as a timeout, which it lets through.  Its result
    is false in a boolean context exactly for a status other than 200 and
    401, for an exception that the clause names and for an empty JSON
    value; and it returns a JSON value that is true in a boolean context
    exactly when the status is 200 and the body is that value.  [zones]
    and [classes] are [_http] on their URL with the current token. *)
Theorem http_outcomes (url : string) (self : FFLogs) :
  exists r,
    _http E url self = Some (r, log_requests self [url])
    /\ (forall e, r = Raise e
                  <-> (e = AuthException /\ unauthorized (service E url))
                      \/ escapes (service E url) e)
    /\ ((exists res, r = Ok res /\ not_ res = true)
        <-> bad_response (service E url))
    /\ (forall p, not_ (Some p) = false ->
          (r = Ok (Some p)
           <-> service E url = http_response 200 (body_json p)))
    /\ zones E self
       = _http E (base_url +:+ "/zones?api_key="
                    +:+ str_token (current_token E self)) self
    /\ classes E self
       = _http E (base_url +:+ "/classes?api_key="
                    +:+ str_token (current_token E self)) self.
Proof.
  unfold _http, unauthorized, escapes, bad_response, raises.
  fold (log_requests self [url]).
  destruct (service E url) as [status b| |e0] eqn:Hs.
  - destruct (Z.eqb_spec status 401) as [->|H401].
    { eexists. split; [reflexivity|].
      split; [|split; [|split; [|split; [apply zones_run|apply classes_run]]]];
        naive_solver. }
    destruct (Z.eqb_spec status 200) as [->|H200]; cbn [negb].
    + destruct b as [p| | |e0]; [| | |destruct (call_failed e0) eqn:He0];
        eexists; (split; [reflexivity|]);
        (split; [|split; [|split; [|split; [apply zones_run|apply classes_run]]]]);
        try naive_solver.
      * destruct p; cbn; naive_solver.
      * intros e. split; [discriminate|].
        intros [[_ [b' Hb]]|[[Hr|Hr] Hf]]; simplify_eq. congruence.
      * split; [intros (res & Hr & _); discriminate|].
        intros [Hr|[(st & b' & Hr & Hst & _)|[Hr|[Hr|[Hr|(e & [Hr|Hr] & Hf)]]]]];
          simplify_eq. congruence.
    + eexists. split; [reflexivity|].
      split; [|split; [|split; [|split; [apply zones_run|apply classes_run]]]];
        naive_solver.
  - eexists. split; [reflexivity|].
    split; [|split; [|split; [|split; [apply zones_run|apply classes_run]]]];
      naive_solver.
  - destruct (call_failed e0) eqn:He0;
      eexists; (split; [reflexivity|]);
      (split; [|split; [|split; [|split; [apply zones_run|apply classes_run]]]]);
      try naive_solver.
    + intros e. split; [discriminate|].
      intros [[_ [b' Hb]]|[[Hr|Hr] Hf]]; simplify_eq. congruence.
    + split; [intros (res & Hr & _); discriminate|].
      intros [Hr|[(st & b' & Hr & Hst & _)|[Hr|[Hr|[Hr|(e & [Hr|Hr] & Hf)]]]]];
        simplify_eq. congruence.
Qed.
End requests.

(** ** The page loop, for every service *)

Section page_loop.
Context (E : Env) (boss difficulty job : Z) (date end_date : datetime).

Local Abbreviation start_timestamp := (timestamp E date * 1000).
Local Abbreviation end_timestamp := (timestamp E end_date * 1000).

(** With a service that always announces more pages the loop uses up any
    fuel. *)
Lemma fetch_pages_never_ends fuel : forall page acc self,
  (forall p, page <= p -> exists rs,
       service E (day_url E boss difficulty job date end_date self p)
       = page_response true rs) ->
  fetch_pages E fuel boss difficulty job start_timestamp end_timestamp
              page acc self = None.
Proof.
  induction fuel as [|fuel IH]; intros page acc self Hsvc; [reflexivity|].
  rewrite fetch_pages_step.
  destruct (Hsvc page ltac:(lia)) as [rs Hrs].
  unfold day_url in Hrs. rewrite Hrs.
  change (page_outcome_of (page_response true rs)) with (more_pages rs).
  cbn iota. apply IH. intros p Hp. apply Hsvc. lia.
Qed.

(** A loop that ends has asked for consecutive pages and has ended at the
    first page that does not announce more. *)
Lemma fetch_pages_ends fuel : forall page acc self r self',
  fetch_pages E fuel boss difficulty job start_timestamp end_timestamp
              page acc self = Some (r, self') ->
  exists k : nat,
    (k < fuel)%nat
    /\ self' = log_requests self
                 (map (day_url E boss difficulty job date end_date self)
                      (pages_from page (S k)))
    /\ (forall i : nat, (i < k)%nat -> exists rs,
          page_outcome_of
            (service E (day_url E boss difficulty job date end_date self
                                (page + Z.of_nat i)))
          = more_pages rs)
    /\ match page_outcome_of
               (service E (day_url E boss difficulty job date end_date self
                                   (page + Z.of_nat k))) with
       | more_pages _ => False
       | last_page _ => exists rs, r = Ok rs
       | failed e => r = Raise e
       end.
Proof.
  induction fuel as [|fuel IH]; intros page acc self r self' H; [discriminate|].
  rewrite fetch_pages_step in H.
  change (url_of E boss difficulty job start_timestamp end_timestamp self page)
    with (day_url E boss difficulty job date end_date self page) in H.
  destruct (page_outcome_of
              (service E (day_url E boss difficulty job date end_date self page)))
    as [rs|rs|e] eqn:Hout.
  - apply IH in H as (k & Hk & -> & Hmore & Hlast).
    exists (S k). split; [lia|]. split; [|split].
    + rewrite log_requests_app. reflexivity.
    + intros [|i] Hi.
      * rewrite Z.add_0_r. eauto.
      * replace (page + Z.of_nat (S i)) with (page + 1 + Z.of_nat i) by lia.
        apply (Hmore i). lia.
    + replace (page + Z.of_nat (S k)) with (page + 1 + Z.of_nat k) by lia.
      exact Hlast.
  - inversion H; subst. exists 0%nat. split; [lia|]. split; [reflexivity|]. split.
    + intros i Hi. lia.
    + rewrite Z.add_0_r, Hout. eauto.
  - inversion H; subst. exists 0%nat. split; [lia|]. split; [reflexivity|]. split.
    + intros i Hi. lia.
    + rewrite Z.add_0_r, Hout. reflexivity.
Qed.

(** X2.  With a service that announces more pages on every page, the
    single-day fetch of an uncached day does not return: whatever the
    fuel, the loop is still running when it is used up. *)
Theorem unbounded_pagination (self : FFLogs) :
  files (data self) !! cache_file boss difficulty job date = None ->
  add_one_day date = Ok end_date ->
  (forall page, 1 <= page -> exists rs,
       service E (day_url E boss difficulty job date end_date self page)
       = page_response true rs) ->
  forall fuel,
    _get_one_day_ranking E fuel boss difficulty job date self = None.
Proof.
  intros Hc Hd Hsvc fuel.
  rewrite (one_day_uncached _ _ _ _ _ _ _ _ Hc Hd).
  rewrite fetch_pages_never_ends by exact Hsvc. reflexivity.
Qed.

(** X3.  Whatever the service answers, a single-day fetch of an uncached
    day that returns or raises has requested the pages [1 .. k+1] in this
    order and no other URL, the first [k] responses announced more pages,
    and response [k+1] is the first that did not: it was the last page if
    the call returned and a failure if it raised. *)
Theorem pages_requested_in_sequence fuel (self : FFLogs) r self' :
  files (data self) !! cache_file boss difficulty job date = None ->
  add_one_day date = Ok end_date ->
  _get_one_day_ranking E fuel boss difficulty job date self = Some (r, self') ->
  exists k : nat,
    (k < fuel)%nat
    /\ requests self'
       = requests self
           ++ map (day_url E boss difficulty job date end_date self)
                  (pages_from 1 (S k))
    /\ (forall i : nat, (i < k)%nat -> exists rs,
          page_outcome_of
            (service E (day_url E boss difficulty job date end_date self
                                (1 + Z.of_nat i)))
          = more_pages rs)
    /\ match page_outcome_of
               (service E (day_url E boss difficulty job date end_date self
                                   (1 + Z.of_nat k))) with
       | more_pages _ => False
       | last_page _ => exists rs, r = Ok rs
       | failed e => r = Raise e
       end.
Proof.
  intros Hc Hd Hrun.
  rewrite (one_day_uncached _ _ _ _ _ _ _ _ Hc Hd) in Hrun.
  destruct (fetch_pages _ _ _ _ _ _ _ _ _ _) as [[[rs|e] self1]|] eqn:Hf; [| |done].
  - apply fetch_pages_ends in Hf as (k & Hk & -> & Hmore & Hlast).
    exists k. split; [done|]. split; [|split; [done|]].
    + destruct (datetime_lt _ _); inversion Hrun; subst; reflexivity.
    + destruct (page_outcome_of _); [done| |discriminate].
      destruct (datetime_lt _ _); inversion Hrun; subst; eauto.
  - apply fetch_pages_ends in Hf as (k & Hk & -> & Hmore & Hlast).
    inversion Hrun; subst. exists k. split; [done|]. split; [reflexivity|].
    split; [done|].
    destruct (page_outcome_of _); [done| |done].
    destruct Hlast as [? ?]. discriminate.
Qed.
End page_loop.

(** ** The window, for every service *)

Lemma one_day_range E fuel boss difficulty job date self r self' :
  _get_one_day_ranking E fuel boss difficulty job date self = Some (r, self') ->
  range self' = range self.
Proof.
  intros H. destruct (files (data self) !! cache_file boss difficulty job date)
    as [rs|] eqn:Hc.
  - rewrite (one_day_cached _ _ _ _ _ _ _ rs Hc) in H. by inversion H.
  - destruct (add_one_day date) as [end_date|e] eqn:Hd.
    + rewrite (one_day_uncached _ _ _ _ _ _ _ _ Hc Hd) in H.
      destruct (fetch_pages _ _ _ _ _ _ _ _ _ _) as [[[rs|e] self1]|] eqn:Hf; [| |done].
      * apply fetch_pages_frame in Hf as [urls ->].
        destruct (datetime_lt _ _); inversion H; reflexivity.
      * apply fetch_pages_frame in Hf as [urls ->]. inversion H; reflexivity.
    + rewrite (one_day_overflow _ _ _ _ _ _ _ _ Hc Hd) in H. by inversion H.
Qed.

Lemma fetched_from_trans s1 s2 s3 :
  fetched_from s1 s2 -> fetched_from s2 s3 -> fetched_from s1 s3.
Proof.
  induction 1 as [|s s' s'' E fuel b d j date r Hrun _ IH]; [done|].
  intros H3. eapply fetched_step; [exact Hrun|]. apply IH, H3.
Qed.

Lemma fetched_from_range s1 s2 : fetched_from s1 s2 -> range s2 = range s1.
Proof.
  induction 1 as [|s s' s'' E fuel b d j date r Hrun _ IH]; [done|].
  rewrite IH. eapply one_day_range, Hrun.
Qed.

Section window_runs.
Context (E : Env) (fuel : nat) (boss difficulty job : Z).

Lemma merge_days_fetched_from days : forall self r self',
  merge_days E fuel boss difficulty job days self = Some (r, self') ->
  fetched_from self self'.
Proof.
  induction days as [|d rest IH]; intros self r self' H.
  - inversion H. constructor.
  - cbn [merge_days] in H. unfold bind at 1 in H.
    destruct (_get_one_day_ranking _ _ _ _ _ _ _) as [[[rs|e] self1]|] eqn:Hd; [| |done].
    + unfold bind at 1 in H.
      destruct (merge_days _ _ _ _ _ rest self1) as [[[more|e] self2]|] eqn:Hr; [| |done].
      * inversion H; subst. eapply fetched_step; [exact Hd|]. eapply IH, Hr.
      * inversion H; subst. eapply fetched_step; [exact Hd|]. eapply IH, Hr.
    + inversion H; subst. eapply fetched_step; [exact Hd|]. constructor.
Qed.

(** The loop over the days stops at the first day that raises. *)
Lemma each_day_stops before : forall n date acc self d after merged self1 e self2,
  window date n = before ++ d :: after ->
  Forall has_day_before before ->
  merge_days E fuel boss difficulty job before self = Some (Ok merged, self1) ->
  _get_one_day_ranking E fuel boss difficulty job d self1 = Some (Raise e, self2) ->
  each_day E fuel boss difficulty job n date acc self = Some (Raise e, self2).
Proof.
  induction before as [|x before IH];
    intros n date acc self d after merged self1 e self2 Hw Hb Hm Hd.
  - destruct n as [|n]; [discriminate|]. cbn [window app] in Hw.
    inversion Hw; subst. inversion Hm; subst.
    cbn [each_day]. unfold bind at 1. rewrite Hd. reflexivity.
  - destruct n as [|n]; [discriminate|]. cbn [window app] in Hw.
    inversion Hw as [[Hx Hrest]]; subst x.
    apply Forall_cons in Hb as [Hdate Hb].
    cbn [merge_days] in Hm. unfold bind at 1 in Hm.
    destruct (_get_one_day_ranking _ _ _ _ _ date self) as [[[rs|e'] s]|] eqn:Hfirst;
      [|discriminate|discriminate].
    unfold bind at 1 in Hm.
    destruct (merge_days _ _ _ _ _ before s) as [[[more|e'] s']|] eqn:Hmore;
      [|discriminate|discriminate].
    inversion Hm; subst.
    cbn [each_day]. unfold bind at 1. rewrite Hfirst.
    rewrite (has_day_before_eq _ Hdate). unfold bind at 1, lift.
    eapply IH; eauto.
Qed.

(** X4.  If the days before [d] in the window are merged without an
    exception and the fetch of [d] raises [e], then [_get_whole_ranking]
    raises [e] and leaves the object as the fetch of [d] left it: the days
    after [d] are not fetched, and what the earlier days stored stays. *)
Theorem aggregation_stops_at_first_failure dps_type anchor self
    before d after merged self1 e self2 :
  window (midnight anchor) (Z.to_nat (range self)) = before ++ d :: after ->
  Forall has_day_before before ->
  merge_days E fuel boss difficulty job before self = Some (Ok merged, self1) ->
  _get_one_day_ranking E fuel boss difficulty job d self1 = Some (Raise e, self2) ->
  _get_whole_ranking E fuel boss difficulty job dps_type anchor self
  = Some (Raise e, self2)
  /\ fetched_from self self2.
Proof.
  intros Hw Hb Hm Hd. split.
  - unfold _get_whole_ranking, bind.
    rewrite (each_day_stops before _ _ _ _ d after merged self1 e self2 Hw Hb Hm Hd).
    reflexivity.
  - eapply fetched_from_trans; [eapply merge_days_fetched_from, Hm|].
    eapply fetched_step; [exact Hd|constructor].
Qed.

(** X5.  If [range] is zero or negative, [_get_whole_ranking] raises
    [DataException] ("no data") without a request, a clock reading or any
    other change of the object, whatever the fuel. *)
Theorem empty_range_sends_nothing dps_type anchor self :
  range self <= 0 ->
  _get_whole_ranking E fuel boss difficulty job dps_type anchor self
  = Some (Raise DataException_no_data, self).
Proof.
  intros Hr. unfold _get_whole_ranking, bind.
  replace (Z.to_nat (range self)) with 0%nat by lia.
  cbn [each_day ret]. rewrite is_empty_sort_and_extract. reflexivity.
Qed.

(** X6.  For a [dps_type] that is none of [rdps], [adps], [pdps],
    [_get_whole_ranking] returns the merged records themselves, in the
    order in which they were fetched, neither sorted nor reduced to
    numbers. *)
Theorem unknown_metric_keeps_records dps_type anchor self merged self' :
  metric_field dps_type = None ->
  Forall has_day_before (window (midnight anchor) (Z.to_nat (range self))) ->
  merge_days E fuel boss difficulty job
             (window (midnight anchor) (Z.to_nat (range self))) self
  = Some (Ok merged, self') ->
  merged <> [] ->
  _get_whole_ranking E fuel boss difficulty job dps_type anchor self
  = Some (Ok (records merged), self').
Proof.
  intros Hf Hw Hm Hne. rewrite whole_ranking_merge by exact Hw.
  unfold bind. rewrite Hm. rewrite bool_decide_eq_false_2 by exact Hne.
  unfold sort_and_extract. unfold metric_field in Hf.
  repeat destruct (String.eqb dps_type _); try discriminate. reflexivity.
Qed.

(** With every day in the cache the days are merged without a request. *)
Lemma merge_days_cached (cached : datetime -> list ranking) days self :
  Forall (fun d => files (data self) !! cache_file boss difficulty job d
                   = Some (cached d)) days ->
  merge_days E fuel boss difficulty job days self
  = Some (Ok (concat (map cached days)), self).
Proof.
  induction 1 as [|d rest Hd _ IH]; [reflexivity|].
  cbn [merge_days]. unfold bind at 1.
  rewrite (one_day_cached _ _ _ _ _ _ _ _ Hd). unfold bind at 1. rewrite IH.
  reflexivity.
Qed.

(** X7.  If every day of the window is in the cache, [_get_whole_ranking]
    sends no request and reads no clock, whatever the service and the
    fuel: it leaves the object as it was and returns the sorted values of
    the cached records, or raises [DataException] when there are none. *)
Theorem cached_window_sends_nothing (cached : datetime -> list ranking)
    dps_type anchor self :
  let days := window (midnight anchor) (Z.to_nat (range self)) in
  Forall has_day_before days ->
  Forall (fun d => files (data self) !! cache_file boss difficulty job d
                   = Some (cached d)) days ->
  _get_whole_ranking E fuel boss difficulty job dps_type anchor self
  = Some (match concat (map cached days) with
          | [] => Raise DataException_no_data
          | _ => Ok (sort_and_extract dps_type (concat (map cached days)))
          end, self).
Proof.
  intros days Hw Hc. rewrite whole_ranking_merge by exact Hw. fold days.
  unfold bind. rewrite (merge_days_cached cached days self Hc).
  destruct (concat (map cached days)); reflexivity.
Qed.
End window_runs.

(** What a merge of elapsed days returned, any later merge returns, from
    the cache. *)
Lemma merge_days_again E fuel boss difficulty job days :
  forall self merged self',
    Forall (elapsed E) days ->
    merge_days E fuel boss difficulty job days self = Some (Ok merged, self') ->
    forall self2, fetched_from self' self2 ->
    forall E' fuel',
      merge_days E' fuel' boss difficulty job days self2 = Some (Ok merged, self2).
Proof.
  induction days as [|d rest IH]; intros self merged self' Hel Hm self2 Hlater E' fuel'.
  - inversion Hm. reflexivity.
  - apply Forall_cons in Hel as [(end_date & Hend & Hnow) Hel].
    cbn [merge_days] in Hm. unfold bind at 1 in Hm.
    destruct (_get_one_day_ranking E fuel _ _ _ d self) as [[[rs|e] s]|] eqn:Hd;
      [|discriminate|discriminate].
    unfold bind at 1 in Hm.
    destruct (merge_days E fuel _ _ _ rest s) as [[[more|e] s']|] eqn:Hr;
      [|discriminate|discriminate].
    inversion Hm; subst.
    assert (files (data s) !! cache_file boss difficulty job d = Some rs) as Hs.
    { apply one_day_outcome in Hd
        as [(rs' & Hc & [= <-] & ->) | [(_ & e & [=] & _) |
            (_ & end' & rs' & urls & Hend' & [= <-] & _ & ->)]]; [done|].
      rewrite Hend in Hend'. inversion Hend'; subst end'. rewrite Hnow.
      apply lookup_insert_eq. }
    assert (fetched_from s self2) as Hs2
      by (eapply fetched_from_trans; [eapply merge_days_fetched_from, Hr|exact Hlater]).
    cbn [merge_days]. unfold bind at 1.
    rewrite (one_day_cached E' boss difficulty job d fuel' self2 rs)
      by (eapply cached_entry_stays; eauto).
    unfold bind at 1. rewrite (IH s more self' Hel Hr self2 Hlater E' fuel').
    reflexivity.
Qed.

(** X8.  If every day of the window is over at every reading of the
    clock, an aggregation that returned [p] has stored all its days: the
    same aggregation run again, with whatever service and fuel, returns
    [p] again and leaves the object, its request log included,
    unchanged. *)
Theorem repeated_query_served_from_cache E fuel boss difficulty job
    dps_type anchor self p self' :
  let days := window (midnight anchor) (Z.to_nat (range self)) in
  Forall has_day_before days ->
  Forall (elapsed E) days ->
  _get_whole_ranking E fuel boss difficulty job dps_type anchor self
  = Some (Ok p, self') ->
  forall E' fuel',
    _get_whole_ranking E' fuel' boss difficulty job dps_type anchor self'
    = Some (Ok p, self').
Proof.
  intros days Hw Hel Hrun E' fuel'.
  rewrite whole_ranking_merge in Hrun by exact Hw. fold days in Hrun.
  unfold bind in Hrun.
  destruct (merge_days E fuel _ _ _ days self) as [[[merged|e] s]|] eqn:Hm;
    [|discriminate|discriminate].
  assert (s = self' /\ bool_decide (merged = []) = false
          /\ p = sort_and_extract dps_type merged) as (-> & Hne & ->).
  { destruct (bool_decide (merged = [])); [discriminate|].
    inversion Hrun. done. }
  assert (range self' = range self) as Hrange
    by (eapply fetched_from_range, merge_days_fetched_from, Hm).
  rewrite whole_ranking_merge by (rewrite Hrange; exact Hw).
  rewrite Hrange. fold days. unfold bind.
  rewrite (merge_days_again E fuel _ _ _ days self merged self' Hel Hm self'
             (fetched_refl _) E' fuel').
  rewrite Hne. reflexivity.
Qed.

(** ** The days of a window and their cache files *)

Lemma days_in_month_bounds y m : 28 <= days_in_month y m <= 31.
Proof. unfold days_in_month. repeat case_match; lia. Qed.

Lemma sub_one_day_valid d d' :
  valid_datetime d -> sub_one_day d = Ok d' ->
  valid_datetime d' /\ date_key d' < date_key d.
Proof.
  unfold valid_datetime, sub_one_day, date_key, MINYEAR, MAXYEAR.
  intros (Hy & Hm & Hd & Hh & Hmi & Hs & Hus).
  pose proof (days_in_month_bounds (year d) (month d - 1)) as Hb.
  destruct (Z.ltb_spec 1 (day d)); [intros [= <-]; cbn; lia|].
  destruct (Z.ltb_spec 1 (month d)); [intros [= <-]; cbn; lia|].
  destruct (Z.ltb_spec 1 (year d)); [|discriminate].
  intros [= <-]; cbn. change (days_in_month (year d - 1) 12) with 31. lia.
Qed.

Lemma window_keys n : forall anchor,
  valid_datetime anchor ->
  Forall has_day_before (window anchor n) ->
  Forall (fun d => valid_datetime d /\ date_key d <= date_key anchor)
         (window anchor n).
Proof.
  induction n as [|n IH]; intros anchor Hv Hw; [constructor|].
  cbn [window] in *. apply Forall_cons in Hw as [Ha Hw].
  constructor; [split; [done|lia]|].
  pose proof (has_day_before_eq _ Ha) as Hsub.
  apply sub_one_day_valid in Hsub as [Hv' Hlt]; [|done].
  eapply Forall_impl; [apply IH; done|].
  intros d [? ?]. split; [done|lia].
Qed.

Lemma append_assoc (a b c : string) : (a +:+ b) +:+ c = a +:+ (b +:+ c).
Proof.
  induction a as [|x a IH]; [reflexivity|].
  change (String x ((a +:+ b) +:+ c) = String x (a +:+ (b +:+ c))).
  by rewrite IH.
Qed.

Lemma cache_file_date boss difficulty job d1 d2 :
  valid_datetime d1 -> valid_datetime d2 ->
  cache_file boss difficulty job d1 = cache_file boss difficulty job d2 ->
  date_key d1 = date_key d2.
Proof.
  intros Hv1 Hv2 H.
  apply valid_datetime_ranges in Hv1 as (? & ? & ?), Hv2 as (? & ? & ?).
  unfold cache_file, cache_name in H. rewrite !append_assoc in H.
  change ("_" +:+ ?s)%string with (String "_" s) in H.
  apply split_at_sep in H as [_ H]; [|apply pretty_Z_sep_free..].
  apply split_at_sep in H as [_ H]; [|apply pretty_Z_sep_free..].
  apply split_at_sep in H as [_ H]; [|apply pretty_Z_sep_free..].
  unfold strftime_Ymd, pad4, pad2 in H. cbn in H.
  inversion H as [[Y1 Y2 Y3 Y4 M1 M2 D1 D2]].
  apply digit_inj in Y1, Y2, Y3, Y4, M1, M2, D1, D2.
  unfold date_key. Z.div_mod_to_equations. lia.
Qed.

(** X9.  The days of a window that starts at a valid date have pairwise
    different cache files. *)
Theorem window_cache_files_distinct boss difficulty job anchor (n : nat) :
  valid_datetime anchor ->
  Forall has_day_before (window (midnight anchor) n) ->
  NoDup (map (cache_file boss difficulty job) (window (midnight anchor) n)).
Proof.
  intros Hv.
  assert (valid_datetime (midnight anchor)) as Hm.
  { unfold valid_datetime, midnight in *. cbn. lia. }
  clear Hv. revert Hm. generalize (midnight anchor) as a.
  induction n as [|n IH]; intros a Hv Hw; [constructor|].
  cbn [window map] in *. apply Forall_cons in Hw as [Ha Hw].
  pose proof (has_day_before_eq _ Ha) as Hsub.
  apply sub_one_day_valid in Hsub as [Hv' Hlt]; [|done].
  constructor; [|apply IH; done].
  intros Hin. apply list_elem_of_fmap in Hin as (d & Heq & Hd).
  pose proof (window_keys n _ Hv' Hw) as Hk.
  rewrite Forall_forall in Hk. destruct (Hk d Hd) as [Hvd Hle].
  apply cache_file_date in Heq; [lia|done..].
Qed.

(** ** The query [dps] *)

Section query.
Context (E : Env) (D : Data) (fuel : nat).

(** X10.  [dps] answers an unknown boss, then an unknown job, then an
    unknown metric with the corresponding message, and does so without a
    request, a clock reading or any other change of the object. *)
Theorem dps_rejects_unknown_names (boss job dps_type : string) (self : FFLogs) :
  (fst (fst (get_boss_info D boss)) = 0 ->
   dps E D fuel boss job dps_type self = Some (Ok (not_found boss), self))
  /\ (fst (fst (get_boss_info D boss)) <> 0 -> fst (get_job_name D job) = 0 ->
      dps E D fuel boss job dps_type self = Some (Ok (not_found job), self))
  /\ (fst (fst (get_boss_info D boss)) <> 0 -> fst (get_job_name D job) <> 0 ->
      not_in_types dps_type = true ->
      dps E D fuel boss job dps_type self
      = Some (Ok (type_not_found dps_type), self)).
Proof.
  unfold dps.
  destruct (get_boss_info D boss) as [[boss_id difficulty] boss_name].
  destruct (get_job_name D job) as [job_id job_name]. cbn [fst].
  destruct (Z.eqb_spec boss_id 0); destruct (Z.eqb_spec job_id 0);
    repeat split; intros; try done.
  match goal with H : not_in_types _ = true |- _ => rewrite H end. reflexivity.
Qed.

Lemma report_of_raises bn jn dps_type p e :
  report_of bn jn dps_type p = Raise e -> e = IndexError \/ e = TypeError.
Proof.
  unfold report_of, percentile_rows. destruct p as [l|l].
  - assert (forall percs e', percentile_rows_of l percs = Raise e' -> e' = IndexError)
      as Hrows.
    { induction percs as [|perc percs IH]; intros e' H; [discriminate|].
      cbn [percentile_rows_of] in H.
      destruct (getitem l _) as [v|e''] eqn:Hg.
      - destruct (percentile_rows_of l percs) as [rows|e'''] eqn:Hr; [discriminate|].
        inversion H; subst. by apply IH.
      - inversion H; subst. unfold getitem in Hg.
        repeat case_match; congruence. }
    destruct (percentile_rows_of l percentage_list) eqn:Hr; [discriminate|].
    intros [= <-]. left. eapply Hrows, Hr.
  - destruct (getitem l _) eqn:Hg; intros [= <-]; [by right|].
    left. unfold getitem in Hg. repeat case_match; congruence.
Qed.

Lemma sub_one_day_raises d e : sub_one_day d = Raise e -> e = OverflowError.
Proof. unfold sub_one_day. repeat case_match; congruence. Qed.

(** X11.  [dps] never raises [DataException] or [AuthException]: whatever
    it raises is neither of them. *)
Theorem dps_absorbs_failures (boss job dps_type : string) (self : FFLogs)
    r self' :
  dps E D fuel boss job dps_type self = Some (r, self') ->
  forall e, r = Raise e -> is_DataException e = false /\ is_AuthException e = false.
Proof.
  unfold dps.
  destruct (get_boss_info D boss) as [[boss_id difficulty] boss_name].
  destruct (boss_id =? 0); [intros [= <- _] e; discriminate|].
  destruct (get_job_name D job) as [job_id job_name].
  destruct (job_id =? 0); [intros [= <- _] e; discriminate|].
  destruct (not_in_types dps_type); [intros [= <- _] e; discriminate|].
  unfold bind at 1. unfold datetime_now at 1. unfold bind at 1, lift.
  destruct (sub_one_day _) as [date|e0] eqn:Hsub;
    [|apply sub_one_day_raises in Hsub as ->; intros [= <- _] e [= <-]; done].
  destruct (_get_whole_ranking _ _ _ _ _ _ _ _) as [[[p|e0] s]|]; [| |done].
  - intros [= <- _] e He. apply report_of_raises in He as [-> | ->]; done.
  - destruct (is_DataException e0) eqn:Hd; [intros [= <- _] e; discriminate|].
    destruct (is_AuthException e0) eqn:Ha; [intros [= <- _] e; discriminate|].
    intros [= <- _] e [= <-]. done.
Qed.

Lemma whole_ranking_ok boss_id difficulty job_id dps_type date self p self' :
  _get_whole_ranking E fuel boss_id difficulty job_id dps_type date self
  = Some (Ok p, self') ->
  exists merged, merged <> [] /\ p = sort_and_extract dps_type merged.
Proof.
  unfold _get_whole_ranking, bind.
  destruct (each_day _ _ _ _ _ _ _ _ _) as [[[merged|e] s]|]; [|done|done].
  rewrite is_empty_sort_and_extract. case_bool_decide; [done|].
  intros [= <- <-]. eauto.
Qed.

Lemma not_in_types_field dps_type :
  not_in_types dps_type = false -> exists field, metric_field dps_type = Some field.
Proof.
  unfold not_in_types, metric_field.
  destruct (String.eqb dps_type "rdps"); [eauto|].
  destruct (String.eqb dps_type "adps"); [eauto|].
  destruct (String.eqb dps_type "pdps"); [eauto|]. discriminate.
Qed.

(** X12.  For a known boss, a known job and one of the three metrics, if
    the aggregation from yesterday returns, then it returned a non-empty
    list of numbers in descending order, and [dps] returns the report with
    their count and the rows of the percentile table: no index is out of
    range. *)
Theorem dps_report (boss job dps_type : string) (self : FFLogs)
    boss_id difficulty boss_name job_id job_name yesterday p self' :
  get_boss_info D boss = (boss_id, difficulty, boss_name) -> boss_id <> 0 ->
  get_job_name D job = (job_id, job_name) -> job_id <> 0 ->
  not_in_types dps_type = false ->
  sub_one_day (now E (clock_reads self)) = Ok yesterday ->
  _get_whole_ranking E fuel boss_id difficulty job_id dps_type yesterday
                     (tick self) = Some (Ok p, self') ->
  exists values,
    p = numbers values /\ values <> [] /\ descending values
    /\ dps E D fuel boss job dps_type self
       = Some (Ok (report boss_name job_name dps_type (length values)
                          (percentile_table values)), self').
Proof.
  intros Hb Hb0 Hj Hj0 Ht Hy Hrun.
  destruct (whole_ranking_ok _ _ _ _ _ _ _ _ Hrun) as (merged & Hne & ->).
  destruct (not_in_types_field _ Ht) as [field Hf].
  rewrite (sort_and_extract_field _ field merged Hf) in *.
  exists (map field (sort_desc field merged)).
  assert (map field (sort_desc field merged) <> []) as Hne'.
  { intros Hnil. apply map_eq_nil in Hnil. apply sort_desc_nil in Hnil. done. }
  split; [done|]. split; [done|]. split; [apply sort_desc_descending|].
  unfold dps. rewrite Hb, Hj.
  destruct (Z.eqb_spec boss_id 0); [done|]. destruct (Z.eqb_spec job_id 0); [done|].
  rewrite Ht. unfold bind at 1. unfold datetime_now at 1. fold (tick self).
  unfold bind at 1, lift. rewrite Hy, Hrun.
  unfold report_of, percentile_rows.
  rewrite (percentile_rows_of_in_range _ _ Hne' percentage_list_range).
  reflexivity.
Qed.
End query.

Lemma dps_absorbs_failures_witness :
  dps refused sample_data 1 "titan" "bard" "rdps" (fresh 2)
  = Some (Ok (check_token AuthException),
          log_requests (tick (fresh 2))
            [day_url refused 5 100 7 (mk_datetime 2019 7 8 0 0 0 0)
                     (mk_datetime 2019 7 9 0 0 0 0) (fresh 2) 1])
  /\ forall e, Ok (check_token AuthException) = Raise e ->
               is_DataException e = false /\ is_AuthException e = false.
Proof.
  assert (dps refused sample_data 1 "titan" "bard" "rdps" (fresh 2)
          = Some (Ok (check_token AuthException),
                  log_requests (tick (fresh 2))
                    [day_url refused 5 100 7 (mk_datetime 2019 7 8 0 0 0 0)
                             (mk_datetime 2019 7 9 0 0 0 0) (fresh 2) 1])) as Hrun
    by (vm_compute; reflexivity).
  split; [exact Hrun|].
  exact (dps_absorbs_failures refused sample_data 1 "titan" "bard" "rdps"
           (fresh 2) _ _ Hrun).
Defined.

Lemma dps_report_witness :
  exists self',
    dps one_record sample_data 1 "titan" "bard" "rdps" (fresh 2)
    = Some (Ok (report "Titan" "Bard" "rdps" 2
                  (percentile_table [inject_Z 90; inject_Z 90])), self').
Proof.
  destruct (_get_whole_ranking one_record 1 5 100 7 "rdps"
              (mk_datetime 2019 7 8 12 0 0 0) (tick (fresh 2)))
    as [[[p|e] self']|] eqn:Hrun;
    [|vm_compute in Hrun; discriminate|vm_compute in Hrun; discriminate].
  destruct (dps_report one_record sample_data 1 "titan" "bard" "rdps" (fresh 2)
              5 100 "Titan" 7 "Bard" (mk_datetime 2019 7 8 12 0 0 0) p self')
    as (values & Hp & _ & _ & Hdps).
  - vm_compute. reflexivity.
  - lia.
  - vm_compute. reflexivity.
  - lia.
  - vm_compute. reflexivity.
  - vm_compute. reflexivity.
  - exact Hrun.
  - exists self'. rewrite Hdps.
    assert (values = [inject_Z 90; inject_Z 90]) as ->; [|reflexivity].
    vm_compute in Hrun. rewrite Hp in Hrun. inversion Hrun. reflexivity.
Defined.

(** ** The configuration store, further *)

Section store.
Context (I : Interpolation).

(** [config_set] on a section other than [DEFAULT] and the empty one. *)
Lemma config_set_named section option_ value d :
  section <> EmptyString -> section <> default_section ->
  value = EmptyString \/ before_set I value = true ->
  config_set I section option_ value d
  = (Ok tt,
     _save_config
       (with_config d
          (mk_ConfigParser (_defaults (config d))
             (<[section := <[optionxform I option_ := value]>
                              (from_option id ∅ (_sections (config d) !! section))]>
                (_sections (config d)))))).
Proof.
  intros Hs Hd Hv. unfold config_set, cp_set.
  assert (negb (String.eqb value EmptyString) && negb (before_set I value) = false)
    as ->.
  { destruct Hv as [-> | ->]; [reflexivity|apply andb_false_r]. }
  apply String.eqb_neq in Hs, Hd. rewrite Hs, Hd. cbn [orb].
  unfold in_sections, cp_setitem_empty. rewrite Hd.
  destruct (_sections (config d) !! section) as [sd|] eqn:Hsec.
  - rewrite bool_decide_eq_true_2 by eauto. cbn [negb]. rewrite Hsec. reflexivity.
  - rewrite bool_decide_eq_false_2 by (intros [? ?]; done). cbn [negb _sections].
    rewrite lookup_insert_eq. cbn [_defaults _sections from_option].
    rewrite insert_insert_eq. reflexivity.
Qed.

Lemma cp_get_inserted defaults sections sectiondict section option_ value :
  (forall visible, before_get I visible value = Some value) ->
  cp_get I (mk_ConfigParser defaults
              (<[section := <[optionxform I option_ := value]> sectiondict]>
                 sections)) section option_
  = Ok value.
Proof.
  intros Hget. unfold cp_get. cbn [_sections _defaults].
  rewrite lookup_insert_eq.
  erewrite lookup_union_Some_l by apply lookup_insert_eq.
  rewrite Hget. reflexivity.
Qed.

(** X13.  [config_set] on a section other than [DEFAULT] and the empty one,
    with a value the parser accepts and returns as it is, succeeds, writes
    the configuration to the file and leaves the pickle files alone;
    afterwards [config_get] returns the value, whatever the fallback. *)
Theorem config_set_then_get section option_ value d :
  section <> EmptyString -> section <> default_section ->
  value = EmptyString \/ before_set I value = true ->
  (forall visible, before_get I visible value = Some value) ->
  exists d',
    config_set I section option_ value d = (Ok tt, d')
    /\ config_file d' = config d'
    /\ files d' = files d
    /\ forall fallback,
         config_get I section option_ fallback d' = (Ok value, d').
Proof.
  intros Hs Hd Hv Hget. eexists. split; [apply config_set_named; done|].
  split; [reflexivity|]. split; [reflexivity|].
  intros fallback. apply config_get_present.
  cbn [_save_config with_config config]. by apply cp_get_inserted.
Qed.

(** X14.  [config_set] on a section other than [DEFAULT] and the empty
    one, whether it succeeds or raises, changes what [config.get] yields
    for no option of any other section, and leaves the pickle files
    alone. *)
Theorem config_set_keeps_other_sections section option_ value d r d'
    section' option' :
  section <> EmptyString -> section <> default_section ->
  config_set I section option_ value d = (r, d') ->
  section' <> section ->
  cp_get I (config d') section' option' = cp_get I (config d) section' option'
  /\ files d' = files d.
Proof.
  intros Hs Hd Hrun Hne. unfold config_set, cp_set in Hrun.
  apply String.eqb_neq in Hs, Hd. rewrite Hs, Hd in Hrun. cbn [orb] in Hrun.
  assert (forall cp1,
            _defaults cp1 = _defaults (config d) ->
            (forall s, s <> section -> _sections cp1 !! s = _sections (config d) !! s) ->
            cp_get I cp1 section' option' = cp_get I (config d) section' option')
    as Hsame.
  { intros cp1 Hdef Hsec. unfold cp_get. rewrite Hdef, (Hsec _ Hne). reflexivity. }
  set (cp1 := if negb (in_sections (config d) section)
              then cp_setitem_empty (config d) section else config d) in *.
  assert (_defaults cp1 = _defaults (config d)
          /\ forall s, s <> section -> _sections cp1 !! s = _sections (config d) !! s)
    as [Hdef1 Hsec1].
  { subst cp1. destruct (negb (in_sections (config d) section));
      [|split; [reflexivity|intros; reflexivity]].
    unfold cp_setitem_empty. rewrite Hd. cbn [_defaults _sections].
    split; [reflexivity|].
    intros s Hsne. rewrite lookup_insert_ne by done. reflexivity. }
  destruct (negb (String.eqb value EmptyString) && negb (before_set I value)).
  { inversion Hrun; subst. split; [|reflexivity]. by apply Hsame. }
  destruct (_sections cp1 !! section) as [sd|].
  - inversion Hrun; subst. split; [|reflexivity].
    apply Hsame; cbn; [done|]. intros s Hsne.
    rewrite lookup_insert_ne by done. by apply Hsec1.
  - inversion Hrun; subst. split; [|reflexivity]. by apply Hsame.
Qed.

(** X15.  Writing to the [DEFAULT] section resets it: after
    [config_set('DEFAULT', option, value)], and after [config_get] has
    stored a fallback there, the section holds this one option and none
    of those it held before; the named sections are as they were. *)
Theorem default_section_is_reset option_ value d :
  _sections (config d) !! default_section = None ->
  value <> EmptyString -> before_set I value = true ->
  (exists d',
      config_set I default_section option_ value d = (Ok tt, d')
      /\ _defaults (config d') = {[optionxform I option_ := value]}
      /\ _sections (config d') = _sections (config d)
      /\ config_file d' = config d')
  /\ (absent I (config d) default_section option_ ->
      exists d',
        config_get I default_section option_ (Some value) d = (Ok value, d')
        /\ _defaults (config d') = {[optionxform I option_ := value]}
        /\ _sections (config d') = _sections (config d)
        /\ config_file d' = config d').
Proof.
  intros Hsec Hv Hset.
  assert (String.eqb value EmptyString = false) as Hv' by (by apply String.eqb_neq).
  assert (cp_set I (if negb (in_sections (config d) default_section)
                    then cp_setitem_empty (config d) default_section
                    else config d) default_section option_ value
          = Ok (mk_ConfigParser {[optionxform I option_ := value]}
                                (_sections (config d)))) as Hcp.
  { unfold in_sections. rewrite Hsec.
    rewrite bool_decide_eq_false_2 by (intros [? ?]; done). cbn [negb].
    unfold cp_set, cp_setitem_empty. rewrite Hset, andb_false_r.
    rewrite String.eqb_refl, orb_true_r. reflexivity. }
  split.
  - eexists. unfold config_set. rewrite Hcp. split; [reflexivity|]. done.
  - intros Habs. eexists. unfold config_get.
    destruct Habs as [-> | ->]; cbn [missing_entry]; rewrite Hv', Hcp;
      (split; [reflexivity|done]).
Qed.

(** X16.  If [config_get] is given a non-empty fallback that the parser
    refuses, for a section that does not exist, it raises [ValueError]
    after it has created the section: the section is then there, empty,
    in memory but not in the file, and reading the option now raises
    [NoOptionError] where it raised [NoSectionError] before. *)
Theorem refused_fallback_leaves_empty_section section option_ F d :
  section <> EmptyString -> section <> default_section ->
  _sections (config d) !! section = None ->
  F <> EmptyString -> before_set I F = false ->
  exists d',
    config_get I section option_ (Some F) d = (Raise ValueError, d')
    /\ _sections (config d') = <[section := ∅]> (_sections (config d))
    /\ config_file d' = config_file d
    /\ cp_get I (config d) section option_ = Raise NoSectionError
    /\ (_defaults (config d) !! optionxform I option_ = None ->
        cp_get I (config d') section option_ = Raise NoOptionError).
Proof.
  intros Hs Hd Hsec HF Hset.
  apply String.eqb_neq in Hs, Hd, HF.
  assert (cp_get I (config d) section option_ = Raise NoSectionError) as Hget.
  { unfold cp_get. rewrite Hsec, Hd. reflexivity. }
  eexists. split; [|split; [|split; [|split; [exact Hget|]]]].
  - unfold config_get. rewrite Hget. cbn [missing_entry]. rewrite HF.
    unfold in_sections. rewrite Hsec.
    rewrite bool_decide_eq_false_2 by (intros [? ?]; done). cbn [negb].
    unfold cp_set. rewrite HF, Hset. cbn [negb andb]. reflexivity.
  - unfold cp_setitem_empty. rewrite Hd. reflexivity.
  - reflexivity.
  - intros Hdef. unfold cp_get, cp_setitem_empty. rewrite Hd.
    cbn [with_config config _sections _defaults]. rewrite lookup_insert_eq.
    rewrite (left_id_L ∅ (∪)), Hdef. reflexivity.
Qed.
End store.

(** ** [__init__] and the token *)

Section object.
Context (E : Env).

(** X18.  When the window length is not configured, [__init__] sets it to
    14 and writes this to the configuration file, and [__init__] on the
    store so obtained yields the same object again, without a further
    change. *)
Theorem init_twice (d : PluginData) :
  absent (interpolation E) (config d) "fflogs" "range" ->
  before_set (interpolation E) "14" = true ->
  (forall visible, before_get (interpolation E) visible "14" = Some "14"%string) ->
  int E "14" = Ok 14 ->
  exists d',
    init E d = Ok (mk_FFLogs 14 d' [] 0)
    /\ config_file d' = config d'
    /\ cp_get (interpolation E) (config_file d') "fflogs" "range" = Ok "14"%string
    /\ init E d' = Ok (mk_FFLogs 14 d' [] 0).
Proof.
  intros Habs Hset Hget H14.
  destruct (cp_set_then_get (interpolation E) (config d) "fflogs" "range" "14"
              Habs ltac:(discriminate) Hset Hget) as (cp2 & Hcp2 & Hread).
  exists (_save_config (with_config d cp2)).
  assert (init E d = Ok (mk_FFLogs 14 (_save_config (with_config d cp2)) [] 0))
    as Hfirst.
  { unfold init, config_get.
    destruct Habs as [-> | ->]; cbn [missing_entry];
      change (String.eqb "14" EmptyString) with false; cbn iota;
      rewrite Hcp2, H14; reflexivity. }
  split; [exact Hfirst|]. split; [reflexivity|]. split; [exact Hread|].
  unfold init. erewrite config_get_present by exact Hread.
  rewrite H14. reflexivity.
Qed.

(** X19.  After the token has been set to a value the parser accepts and
    returns as it is, the property [token] yields this value; setting the
    token writes the configuration file and sends no request. *)
Theorem token_round_trip (value : string) (self : FFLogs) :
  value = EmptyString \/ before_set (interpolation E) value = true ->
  (forall visible, before_get (interpolation E) visible value = Some value) ->
  exists self',
    set_token E value self = Some (Ok tt, self')
    /\ token E self' = Some (Ok (Some value), self')
    /\ config_file (data self') = config (data self')
    /\ requests self' = requests self
    /\ range self' = range self.
Proof.
  intros Hv Hget. unfold set_token.
  rewrite (config_set_named (interpolation E) "fflogs" "token" value (data self))
    by (done || discriminate).
  eexists. split; [reflexivity|]. split; [|done].
  rewrite token_run. unfold current_token.
  cbn [with_data data _save_config with_config config].
  rewrite cp_get_inserted by exact Hget. reflexivity.
Qed.
End object.

Lemma init_twice_witness :
  exists d',
    init (sample_env (answers [])) empty_data = Ok (mk_FFLogs 14 d' [] 0)
    /\ init (sample_env (answers [])) d' = Ok (mk_FFLogs 14 d' [] 0).
Proof.
  destruct (init_twice (sample_env (answers [])) empty_data)
    as (d' & H1 & _ & _ & H2).
  - left. vm_compute. reflexivity.
  - vm_compute. reflexivity.
  - intros visible. vm_compute. reflexivity.
  - vm_compute. reflexivity.
  - exists d'. split; assumption.
Defined.

Lemma token_round_trip_witness :
  exists self',
    set_token (sample_env (answers [])) "secret" (fresh 2) = Some (Ok tt, self')
    /\ token (sample_env (answers [])) self' = Some (Ok (Some "secret"%string), self').
Proof.
  destruct (token_round_trip (sample_env (answers [])) "secret" (fresh 2))
    as (self' & H1 & H2 & _).
  - right. vm_compute. reflexivity.
  - intros visible. vm_compute. reflexivity.
  - exists self'. split; assumption.
Defined.

(** ** The plugin manager *)

Module ManagerFacts.
Import Manager.

Lemma dict_get_app d1 d2 key :
  dict_get (d1 ++ d2) key
  = match dict_get d1 key with Some p => Some p | None => dict_get d2 key end.
Proof.
  induction d1 as [|[k q] d1 IH]; [reflexivity|].
  cbn [app dict_get]. destruct (String.eqb key k); [reflexivity|exact IH].
Qed.

Lemma dict_get_None d key : dict_get d key = None <-> ~ In key (map fst d).
Proof.
  induction d as [|[k q] d IH]; cbn [dict_get map fst In]; [tauto|].
  destruct (String.eqb_spec key k) as [->|Hne].
  - split; [discriminate|]. intros H. exfalso. apply H. by left.
  - rewrite IH. split; [intros H [?|?]; [congruence|done]|tauto].
Qed.

Lemma dict_set_fresh d key p :
  dict_get d key = None -> dict_set d key p = d ++ [(key, p)].
Proof.
  induction d as [|[k q] d IH]; [reflexivity|].
  cbn [dict_get dict_set app]. destruct (String.eqb key k); [discriminate|].
  intros H. by rewrite IH.
Qed.

Lemma register_inv plugin self self' :
  register plugin self = inr self' ->
  exists p,
    plugin = a_Plugin p
    /\ dict_get (_plugin_list self) (name p) = None
    /\ self' = mk_PluginManager (_plugin_list self ++ [(name p, p)]) (bot self).
Proof.
  unfold register, dict_in. destruct plugin as [p|]; [|discriminate].
  destruct (dict_get (_plugin_list self) (name p)) eqn:Hg; [discriminate|].
  intros [= <-]. exists p. by rewrite dict_set_fresh.
Qed.

Lemma for_each_key_plugin_list method keys : forall self,
  _plugin_list (snd (for_each_key method keys self)) = _plugin_list self.
Proof.
  induction keys as [|key keys IH]; intros self; [reflexivity|].
  cbn [for_each_key]. destruct (dict_get _ key); [|reflexivity].
  rewrite IH. reflexivity.
Qed.

(** X20.  In every manager obtained from a new one, the names in the
    dictionary are pairwise different, every plugin is stored under its
    own name and is what a lookup of that name yields, and no method other
    than [register] changes the dictionary. *)
Theorem registry_names_unique (self : PluginManager) :
  registered_from_new self ->
  NoDup (map fst (_plugin_list self))
  /\ (forall key p, In (key, p) (_plugin_list self) ->
        key = name p /\ dict_get (_plugin_list self) key = Some p)
  /\ (forall key,
        _plugin_list (snd (enable key self)) = _plugin_list self
        /\ _plugin_list (snd (disable key self)) = _plugin_list self
        /\ _plugin_list (snd (reload key self)) = _plugin_list self
        /\ _plugin_list (snd (status key self)) = _plugin_list self)
  /\ _plugin_list (snd (enable_all self)) = _plugin_list self
  /\ _plugin_list (snd (disable_all self)) = _plugin_list self.
Proof.
  intros Hreg.
  assert (NoDup (map fst (_plugin_list self))
          /\ (forall key p, In (key, p) (_plugin_list self) ->
                key = name p /\ dict_get (_plugin_list self) key = Some p))
    as [Hnd Hkeys].
  { induction Hreg as [|self plugin self' _ [Hnd Hkeys] Hreg
                       |self self' _ [Hnd Hkeys] Hsame].
    - split; [constructor|]. intros ? ? [].
    - apply register_inv in Hreg as (p & -> & Hfresh & ->).
      cbn [_plugin_list bot]. split.
      + rewrite map_app. apply NoDup_app. split; [exact Hnd|]. split.
        * intros k Hk Hin. apply list_elem_of_In in Hk, Hin.
          destruct Hin as [<-|[]]. apply dict_get_None in Hfresh. done.
        * repeat constructor. intros Hin. apply list_elem_of_In in Hin. done.
      + intros key q Hin. apply in_app_or in Hin as [Hin|[[= <- <-]|[]]].
        * destruct (Hkeys key q Hin) as [-> Hget]. split; [done|].
          by rewrite dict_get_app, Hget.
        * split; [done|]. rewrite dict_get_app, Hfresh. cbn [dict_get].
          by rewrite String.eqb_refl.
    - rewrite Hsame. done. }
  split; [exact Hnd|]. split; [exact Hkeys|]. split.
  - intros key. unfold enable, disable, reload, status.
    destruct (dict_get (_plugin_list self) key); done.
  - split; apply for_each_key_plugin_list.
Qed.

(** X21.  Before a plugin is registered, [enable], [disable], [reload] and
    [status] of its name raise [PluginNotExistError] and change nothing.
    After [register] the plugin is found under its name, the other names
    are as before, [enable] and [disable] make the subscriptions of its
    events and log a message, and a second plugin of the same name is
    refused. *)
Theorem register_then_use (p : Plugin) (self self' : PluginManager) :
  register (a_Plugin p) self = inr self' ->
  (enable (name p) self = (Some PluginNotExistError, self)
   /\ disable (name p) self = (Some PluginNotExistError, self)
   /\ reload (name p) self = (Some PluginNotExistError, self)
   /\ status (name p) self = (Some PluginNotExistError, self))
  /\ dict_get (_plugin_list self') (name p) = Some p
  /\ (forall key, key <> name p ->
        dict_get (_plugin_list self') key = dict_get (_plugin_list self) key)
  /\ enable (name p) self'
     = (None, mk_PluginManager (_plugin_list self')
                (bot self' ++ Plugin_enable p ++ [logger_info_enabled (name p)]))
  /\ disable (name p) self'
     = (None, mk_PluginManager (_plugin_list self')
                (bot self' ++ Plugin_disable p ++ [logger_info_disabled (name p)]))
  /\ (forall q, name q = name p ->
        register (a_Plugin q) self' = inl Exception_registered).
Proof.
  intros Hreg. apply register_inv in Hreg as (p' & [= <-] & Hfresh & ->).
  cbn [_plugin_list bot].
  assert (dict_get (_plugin_list self ++ [(name p, p)]) (name p) = Some p) as Hget.
  { rewrite dict_get_app, Hfresh. cbn [dict_get]. by rewrite String.eqb_refl. }
  split; [unfold enable, disable, reload, status; by rewrite Hfresh|].
  split; [exact Hget|]. split.
  { intros key Hne. rewrite dict_get_app. cbn [dict_get].
    apply String.eqb_neq in Hne. rewrite Hne. by destruct (dict_get _ key). }
  unfold enable, disable, register, dict_in. cbn [_plugin_list bot].
  rewrite Hget. split; [done|]. split; [done|].
  intros q ->. by rewrite Hget.
Qed.

Lemma registered_nodup (self : PluginManager) :
  registered_from_new self -> NoDup (map fst (_plugin_list self)).
Proof.
  induction 1 as [|self plugin self' _ Hnd Hreg|self self' _ Hnd Hsame];
    [constructor| |by rewrite Hsame].
  apply register_inv in Hreg as (p & -> & Hfresh & ->). cbn [_plugin_list bot].
  rewrite map_app. apply NoDup_app. split; [exact Hnd|]. split.
  - intros k Hk Hin. apply list_elem_of_In in Hk, Hin.
    destruct Hin as [<-|[]]. apply dict_get_None in Hfresh. done.
  - repeat constructor. intros Hin. apply list_elem_of_In in Hin. done.
Qed.

Lemma for_each_key_all (method : Plugin -> list bot_call) d :
  NoDup (map fst d) ->
  forall done rest calls,
    d = done ++ rest ->
    for_each_key method (map fst rest) (mk_PluginManager d calls)
    = (None, mk_PluginManager d (calls ++ concat (map (fun kp => method (snd kp)) rest))).
Proof.
  intros Hnd done rest. revert done.
  induction rest as [|[k p] rest IH]; intros done calls Hd.
  - cbn. by rewrite app_nil_r.
  - cbn [map fst for_each_key _plugin_list bot].
    assert (dict_get d k = Some p) as ->.
    { subst d. rewrite dict_get_app.
      assert (dict_get done k = None) as ->.
      { apply dict_get_None. intros Hin. rewrite map_app in Hnd.
        apply NoDup_app in Hnd as (_ & Hdisj & _).
        apply (Hdisj k); apply list_elem_of_In; [done|]. by left. }
      cbn [dict_get]. by rewrite String.eqb_refl. }
    rewrite (IH (done ++ [(k, p)])) by (by rewrite <- app_assoc).
    cbn [map concat snd]. by rewrite app_assoc.
Qed.

(** X22.  [enable_all] subscribes every registered plugin to its events,
    the plugins in the order of their registration, each of them once and
    without an error; [disable_all] unsubscribes them in the same
    order. *)
Theorem enable_all_in_registration_order (self : PluginManager) :
  registered_from_new self ->
  enable_all self
  = (None, mk_PluginManager (_plugin_list self)
             (bot self ++ concat (map (fun kp => Plugin_enable (snd kp))
                                      (_plugin_list self))))
  /\ disable_all self
     = (None, mk_PluginManager (_plugin_list self)
                (bot self ++ concat (map (fun kp => Plugin_disable (snd kp))
                                         (_plugin_list self)))).
Proof.
  intros Hreg. pose proof (registered_nodup self Hreg) as Hnd.
  unfold enable_all, disable_all. destruct self as [d calls]. cbn in *.
  split.
  - rewrite (for_each_key_all Plugin_enable d Hnd [] d calls) by reflexivity.
    reflexivity.
  - rewrite (for_each_key_all Plugin_disable d Hnd [] d calls) by reflexivity.
    reflexivity.
Qed.

End ManagerFacts.

(** ** The further properties on the sample surroundings *)

Lemma unbounded_pagination_witness :
  _get_one_day_ranking endless 5 5 100 7 day_1 (fresh 2) = None.
Proof.
  apply (unbounded_pagination endless 5 100 7 day_1 end_of_day_1 (fresh 2)).
  - vm_compute. reflexivity.
  - vm_compute. reflexivity.
  - intros page _. eexists. reflexivity.
Defined.

Lemma pages_requested_in_sequence_witness :
  exists k : nat,
    (k < 3)%nat
    /\ requests after_three_pages
       = requests (fresh 2)
           ++ map (day_url three_pages 5 100 7 day_1 end_of_day_1 (fresh 2))
                  (pages_from 1 (S k)).
Proof.
  destruct (pages_requested_in_sequence three_pages 5 100 7 day_1 end_of_day_1 3
              (fresh 2)
              (Ok (ten_samples 100 ++ ten_samples 200 ++ ten_samples 300))
              after_three_pages)
    as (k & Hk & Hreq & _).
  - vm_compute. reflexivity.
  - vm_compute. reflexivity.
  - vm_compute. reflexivity.
  - exists k. split; assumption.
Defined.

Lemma aggregation_stops_at_first_failure_witness :
  exists self2,
    _get_whole_ranking refused 1 5 100 7 "rdps" day_1 first_day_cached
    = Some (Raise AuthException, self2).
Proof.
  destruct (_get_one_day_ranking refused 1 5 100 7 day_2 first_day_cached)
    as [[[rs|e] self2]|] eqn:Hd;
    [vm_compute in Hd; discriminate| |vm_compute in Hd; discriminate].
  assert (e = AuthException) as -> by (vm_compute in Hd; congruence).
  exists self2.
  refine (proj1 (aggregation_stops_at_first_failure refused 1 5 100 7 "rdps" day_1
                   first_day_cached [day_1] day_2 [] [sample 100; sample 80]
                   first_day_cached AuthException self2 _ _ _ Hd)).
  - vm_compute. reflexivity.
  - repeat constructor. eexists. vm_compute. reflexivity.
  - vm_compute. reflexivity.
Defined.

Lemma empty_range_sends_nothing_witness :
  _get_whole_ranking refused 0 5 100 7 "rdps" day_1 (fresh 0)
  = Some (Raise DataException_no_data, fresh 0).
Proof.
  apply (empty_range_sends_nothing refused 0 5 100 7 "rdps" day_1 (fresh 0)).
  simpl. lia.
Defined.

Lemma unknown_metric_keeps_records_witness :
  exists self',
    _get_whole_ranking one_record 1 5 100 7 "xdps" day_1 (fresh 2)
    = Some (Ok (records [sample 90; sample 90]), self').
Proof.
  destruct (merge_days one_record 1 5 100 7
              (window (midnight day_1) (Z.to_nat (range (fresh 2)))) (fresh 2))
    as [[[merged|e] self']|] eqn:Hm;
    [|vm_compute in Hm; discriminate|vm_compute in Hm; discriminate].
  assert (merged = [sample 90; sample 90]) as ->
    by (vm_compute in Hm; inversion Hm; reflexivity).
  exists self'.
  apply (unknown_metric_keeps_records one_record 1 5 100 7 "xdps" day_1 (fresh 2)).
  - vm_compute. reflexivity.
  - repeat constructor; eexists; vm_compute; reflexivity.
  - exact Hm.
  - discriminate.
Defined.

Lemma cached_window_sends_nothing_witness :
  _get_whole_ranking refused 0 5 100 7 "rdps" day_1 one_day_cached_object
  = Some (Ok (numbers [inject_Z 100; inject_Z 80]), one_day_cached_object).
Proof.
  apply (cached_window_sends_nothing refused 0 5 100 7
           (fun _ => [sample 100; sample 80]) "rdps" day_1 one_day_cached_object).
  - repeat constructor; eexists; vm_compute; reflexivity.
  - repeat constructor; vm_compute; reflexivity.
Defined.

Lemma repeated_query_served_from_cache_witness :
  exists p self',
    _get_whole_ranking one_record 1 5 100 7 "rdps" day_1 (fresh 2)
    = Some (Ok p, self')
    /\ _get_whole_ranking refused 0 5 100 7 "rdps" day_1 self'
       = Some (Ok p, self').
Proof.
  destruct (_get_whole_ranking one_record 1 5 100 7 "rdps" day_1 (fresh 2))
    as [[[p|e] self']|] eqn:Hrun;
    [|vm_compute in Hrun; discriminate|vm_compute in Hrun; discriminate].
  exists p, self'. split; [reflexivity|].
  apply (repeated_query_served_from_cache one_record 1 5 100 7 "rdps" day_1
           (fresh 2) p self').
  - repeat constructor; eexists; vm_compute; reflexivity.
  - repeat constructor; eexists;
      (split; [vm_compute; reflexivity|intros k; vm_compute; reflexivity]).
  - exact Hrun.
Defined.

Lemma window_cache_files_distinct_witness :
  NoDup (map (cache_file 5 100 7) (window (midnight noon_of_day_1) 3)).
Proof.
  apply (window_cache_files_distinct 5 100 7 noon_of_day_1 3).
  - unfold valid_datetime. vm_compute. intuition discriminate.
  - repeat constructor; eexists; vm_compute; reflexivity.
Defined.

Lemma config_set_then_get_witness :
  exists d',
    config_set plain_interpolation "fflogs" "token" "secret" empty_data = (Ok tt, d')
    /\ config_get plain_interpolation "fflogs" "token" None d' = (Ok "secret"%string, d').
Proof.
  destruct (config_set_then_get plain_interpolation "fflogs" "token" "secret"
              empty_data) as (d' & Hset & _ & _ & Hget).
  - discriminate.
  - discriminate.
  - right. vm_compute. reflexivity.
  - intros visible. vm_compute. reflexivity.
  - exists d'. split; [exact Hset|apply Hget].
Defined.

Lemma config_set_keeps_other_sections_witness :
  cp_get plain_interpolation
         (config (snd (config_set plain_interpolation "fflogs" "token" "secret"
                                  two_defaults))) "other" "a"
  = cp_get plain_interpolation (config two_defaults) "other" "a".
Proof.
  destruct (config_set plain_interpolation "fflogs" "token" "secret" two_defaults)
    as [r d'] eqn:Hrun.
  refine (proj1 (config_set_keeps_other_sections plain_interpolation "fflogs" "token"
                   "secret" two_defaults r d' "other" "a" _ _ Hrun _));
    discriminate.
Defined.

Lemma default_section_is_reset_witness :
  exists d',
    config_set plain_interpolation "DEFAULT" "a" "5" two_defaults = (Ok tt, d')
    /\ _defaults (config d') = {["a"%string := "5"%string]}
    /\ _defaults (config d') !! "b"%string = None.
Proof.
  destruct (default_section_is_reset plain_interpolation "a" "5" two_defaults)
    as [(d' & Hset & Hdef & _) _].
  - vm_compute. reflexivity.
  - discriminate.
  - vm_compute. reflexivity.
  - exists d'. split; [exact Hset|]. split; [exact Hdef|].
    rewrite Hdef. vm_compute. reflexivity.
Defined.

Lemma refused_fallback_leaves_empty_section_witness :
  exists d',
    config_get plain_interpolation "fflogs" "range" (Some "50%"%string) empty_data
    = (Raise ValueError, d')
    /\ cp_get plain_interpolation (config d') "fflogs" "range" = Raise NoOptionError.
Proof.
  destruct (refused_fallback_leaves_empty_section plain_interpolation "fflogs"
              "range" "50%" empty_data) as (d' & Hrun & _ & _ & _ & Hafter).
  - discriminate.
  - discriminate.
  - vm_compute. reflexivity.
  - discriminate.
  - vm_compute. reflexivity.
  - exists d'. split; [exact Hrun|]. apply Hafter. vm_compute. reflexivity.
Defined.

Lemma two_plugins_registered : Manager.registered_from_new two_plugins.
Proof.
  eapply Manager.from_register; [eapply Manager.from_register; [apply Manager.from_new|]|].
  - instantiate (2 := Manager.a_Plugin chat_plugin). vm_compute. reflexivity.
  - instantiate (1 := Manager.a_Plugin dice_plugin). vm_compute. reflexivity.
Defined.

Lemma registry_names_unique_witness :
  NoDup (map fst (Manager._plugin_list two_plugins)).
Proof.
  exact (proj1 (ManagerFacts.registry_names_unique two_plugins two_plugins_registered)).
Defined.

Lemma register_then_use_witness :
  Manager.enable "dice" (Manager.mk_PluginManager [("chat"%string, chat_plugin)] [])
  = (Some Manager.PluginNotExistError,
     Manager.mk_PluginManager [("chat"%string, chat_plugin)] [])
  /\ Manager.dict_get (Manager._plugin_list two_plugins) "dice" = Some dice_plugin.
Proof.
  destruct (ManagerFacts.register_then_use dice_plugin
              (Manager.mk_PluginManager [("chat"%string, chat_plugin)] [])
              two_plugins) as ((H1 & _) & H2 & _).
  - vm_compute. reflexivity.
  - split; [exact H1|exact H2].
Defined.

Lemma enable_all_in_registration_order_witness :
  Manager.enable_all two_plugins
  = (None,
     Manager.mk_PluginManager (Manager._plugin_list two_plugins)
       [Manager.subscribe "message.group" chat_plugin;
        Manager.subscribe "message.private" chat_plugin;
        Manager.subscribe "message" dice_plugin]).
Proof.
  exact (proj1 (ManagerFacts.enable_all_in_registration_order two_plugins
                  two_plugins_registered)).
Defined.
